(** * DevKB VS Code extension: a shallow embedding of [src/extension.ts]

    The extension is a thin client: every command opens input boxes, calls
    the DevKB HTTP API and renders the JSON answer.  The embedding keeps
    that shape.  JavaScript strings are sequences of UTF-16 code units,
    JSON answers are JavaScript values, and a command is a finite tree of
    calls to the editor and to the host, run against an arbitrary
    environment that answers each call. *)

From Stdlib Require Import List NArith ZArith QArith Bool String Ascii Lia.
From Stdlib Require Import DecimalString.
Import ListNotations.

Close Scope Q_scope.
Open Scope list_scope.

Set Implicit Arguments.
Set Warnings "-register-all".

(** ** Strings *)

Module JsString.

Local Open Scope N_scope.

(** A JavaScript string is a sequence of 16-bit code units. *)
Definition jstring := list N.

(** A source literal (ASCII) as a JavaScript string. *)
Definition js (s : string) : jstring :=
  map N_of_ascii (list_ascii_of_string s).

(** [WhiteSpace] and [LineTerminator] of ECMA-262, the code units that
    [String.prototype.trim] strips.  All of them are in the basic plane. *)
Definition is_white_space (c : N) : bool :=
  (9 <=? c) && (c <=? 13)
  || (c =? 32) || (c =? 160) || (c =? 5760)
  || (8192 <=? c) && (c <=? 8202)
  || (c =? 8232) || (c =? 8233) || (c =? 8239) || (c =? 8287)
  || (c =? 12288) || (c =? 65279).

Fixpoint trimStart (s : jstring) : jstring :=
  match s with
  | [] => []
  | c :: r => if is_white_space c then trimStart r else s
  end.

Definition trimEnd (s : jstring) : jstring := rev (trimStart (rev s)).

(** [s.trim()] *)
Definition trim (s : jstring) : jstring := trimEnd (trimStart s).

(** [s.split(sep)] for a separator of one code unit.  The empty string
    splits into one empty piece. *)
Fixpoint split (sep : N) (s : jstring) : list jstring :=
  match s with
  | [] => [[]]
  | c :: r =>
      if c =? sep then [] :: split sep r
      else match split sep r with
           | [] => [[c]]
           | p :: ps => (c :: p) :: ps
           end
  end.

(** The separator of [tags.split(',')]. *)
Definition comma : N := 44.

(** [s.substring(0, n)] *)
Definition substring0 (n : nat) (s : jstring) : jstring := firstn n s.

(** The ASCII part of [String.prototype.toLowerCase]: the letters [A-Z]
    go to [a-z]; this development never applies it outside ASCII. *)
Definition lower_unit (c : N) : N :=
  if (65 <=? c) && (c <=? 90) then c + 32 else c.

Definition toLowerCase (s : jstring) : jstring := map lower_unit s.

(** Decimal rendering of an array length or an array index. *)
Definition decimal (n : nat) : jstring :=
  js (NilZero.string_of_uint (Nat.to_uint n)).

(** *** [encodeURIComponent]

    ECMA-262, [Encode(string, unreserved)]: a code unit of the unreserved
    set is kept, any other code point is written as the percent-escaped
    octets of its UTF-8 form, and an unpaired surrogate throws a
    [URIError]. *)

(** [uriAlpha], [DecimalDigit] and [uriMark]: [- _ . ! ~ * ' ( )]. *)
Definition uri_unreserved (c : N) : bool :=
  (65 <=? c) && (c <=? 90) || (97 <=? c) && (c <=? 122)
  || (48 <=? c) && (c <=? 57)
  || (c =? 45) || (c =? 95) || (c =? 46) || (c =? 33) || (c =? 126)
  || (c =? 42) || (c =? 39) || (c =? 40) || (c =? 41).

Definition is_leading_surrogate (c : N) : bool :=
  (55296 <=? c) && (c <=? 56319).

Definition is_trailing_surrogate (c : N) : bool :=
  (56320 <=? c) && (c <=? 57343).

Definition hex_digit (d : N) : N :=
  if d <? 10 then 48 + d else 55 + d.

(** ["%XX"], upper-case hexadecimal. *)
Definition percent (octet : N) : jstring :=
  [37; hex_digit (octet / 16); hex_digit (octet mod 16)].

Definition utf8 (cp : N) : list N :=
  if cp <? 128 then [cp]
  else if cp <? 2048 then
    [N.lor 192 (N.shiftr cp 6); N.lor 128 (N.land cp 63)]
  else if cp <? 65536 then
    [N.lor 224 (N.shiftr cp 12);
     N.lor 128 (N.land (N.shiftr cp 6) 63);
     N.lor 128 (N.land cp 63)]
  else
    [N.lor 240 (N.shiftr cp 18);
     N.lor 128 (N.land (N.shiftr cp 12) 63);
     N.lor 128 (N.land (N.shiftr cp 6) 63);
     N.lor 128 (N.land cp 63)].

Definition escape (cp : N) : jstring := flat_map percent (utf8 cp).

(** [None] stands for the thrown [URIError]. *)
Fixpoint encodeURIComponent (s : jstring) : option jstring :=
  match s with
  | [] => Some []
  | c :: r =>
      if uri_unreserved c then option_map (cons c) (encodeURIComponent r)
      else if is_trailing_surrogate c then None
      else if is_leading_surrogate c then
        match r with
        | d :: r' =>
            if is_trailing_surrogate d then
              option_map
                (app (escape ((c - 55296) * 1024 + (d - 56320) + 65536)))
                (encodeURIComponent r')
            else None
        | [] => None
        end
      else option_map (app (escape c)) (encodeURIComponent r)
  end.

End JsString.
Export JsString.

Arguments js : simpl never.
Arguments encodeURIComponent : simpl never.
Arguments split : simpl never.
Arguments trim : simpl never.

(** ** Values

    What [response.json()] and the configuration hand to the program:
    JavaScript values built from JSON.  An object is the list of its own
    properties in enumeration order, with distinct names. *)

Inductive value : Type :=
| VUndefined
| VNull
| VBool (b : bool)
| VNum (q : Q)          (* a number; the program only tests its sign *)
| VStr (s : jstring)
| VArr (elements : list value)
| VObj (props : list (jstring * value)).

Definition is_empty (s : jstring) : bool :=
  match s with [] => true | _ :: _ => false end.

(** Truthiness, as [!v], [v && ...], [v || ...] and [v ? ... : ...] test it. *)
Definition ToBoolean (v : value) : bool :=
  match v with
  | VUndefined | VNull => false
  | VBool b => b
  | VNum q => negb (Qeq_bool q 0)
  | VStr s => negb (is_empty s)
  | VArr _ | VObj _ => true
  end.

Fixpoint jstring_eqb (a b : jstring) : bool :=
  match a, b with
  | [], [] => true
  | x :: a', y :: b' => N.eqb x y && jstring_eqb a' b'
  | _, _ => false
  end.

Fixpoint lookup (name : jstring) (props : list (jstring * value)) : option value :=
  match props with
  | [] => None
  | (k, v) :: rest => if jstring_eqb k name then Some v else lookup name rest
  end.

(** A [string | undefined] result of the editor API, and its place among
    the values. *)
Definition optional (o : option jstring) : value :=
  match o with
  | Some s => VStr s
  | None => VUndefined
  end.

Definition truthy (o : option jstring) : bool := ToBoolean (optional o).

(** [a || b] on [string | undefined]. *)
Definition or_else (a b : option jstring) : option jstring :=
  if truthy a then a else b.

(** ** Calls to the editor and to the host *)

(** The text [JSON.stringify] makes of a value is kept symbolic. *)
Inductive json_text : Type :=
| JSON_stringify (data : value).

(** The path [path.join] makes of two segments is kept symbolic. *)
Inductive fs_path : Type :=
| path_join (base segment : jstring).

Record request_init : Type := {
  method : jstring;
  headers : list (jstring * jstring);
  body : option json_text
}.

Record input_box_options : Type := {
  prompt : jstring;
  placeHolder : jstring
}.

Record quick_pick_item : Type := {
  label : value;
  description : value;
  detail : jstring;
  entry : value
}.

Record quick_pick_options : Type := {
  matchOnDescription : bool;
  matchOnDetail : bool
}.

Record text_document_init : Type := {
  content : jstring;
  language : jstring
}.

Record workspace_folder : Type := {
  fsPath : jstring
}.

Record relative_pattern : Type := {
  pattern_base : workspace_folder;
  pattern : jstring
}.

(** Handles the editor and [fetch] give back. *)
Inductive response : Type := Response (id : nat).
Inductive text_document : Type := TextDocument (id : nat).
Inductive text_editor : Type := TextEditor (id : nat).

(** How an awaited host call settles.  A rejection carries the text that
    [`${error}`] prints for it. *)
Inductive settled (A : Type) : Type :=
| Fulfilled (a : A)
| Rejected (reason : jstring).
Arguments Fulfilled {A} a.
Arguments Rejected {A} reason.

(** One constructor per call the extension makes, with the type of what
    the call gives back.  The calls of the editor API settle without
    rejecting; [fetch], [response.json()], [fs.mkdirSync] and the host's
    conversions may reject or throw. *)
Inductive call : Type -> Type :=
(* vscode.workspace.getConfiguration(section).get(key) *)
| GetConfiguration (section key : jstring) : call value
(* fetch(url, init) and response.json() *)
| Fetch (url : jstring) (init : request_init) : call (settled response)
| ResponseJson (r : response) : call (settled value)
(* vscode.window *)
| ShowInputBox (options : input_box_options) : call (option jstring)
| ShowQuickPick (items : list jstring) (place_holder : jstring)
  : call (option jstring)
| ShowQuickPickItems (items : list quick_pick_item)
    (options : quick_pick_options) : call (option quick_pick_item)
| ShowErrorMessage (message : jstring) : call unit
| ShowWarningMessage (message : jstring) : call unit
| ShowInformationMessage (message : jstring) : call unit
| ShowTextDocument (doc : text_document) : call unit
| ActiveTextEditor : call (option text_editor)
(* editor.document.getText(editor.selection) *)
| DocumentGetText (editor : text_editor) : call jstring
(* vscode.workspace *)
| OpenTextDocument (init : text_document_init) : call text_document
| WorkspaceFolders : call (option (list workspace_folder))
| FindFiles (include exclude : relative_pattern) : call (list jstring)
(* fs *)
| ExistsSync (p : fs_path) : call bool
| MkdirSync (p : fs_path) (recursive : bool) : call (settled unit)
(* conversions the language leaves to the engine: ToString of a number,
   an array or an object, and [v > 0] for a string, an array or an object *)
| HostToString (v : value) : call (settled jstring)
| HostGreaterThanZero (v : value) : call (settled bool).

(** What a command can throw: the language's [TypeError] (a property of
    [undefined] or [null], a call of what is no function), the [URIError]
    of [encodeURIComponent], and the rejection of a host call. *)
Inductive exn : Type :=
| TypeError
| URIError
| HostError (reason : jstring).

(** A command: a finite tree of calls, ending in a result or in an
    exception that nothing caught. *)
Inductive prog (A : Type) : Type :=
| Ret (a : A)
| Raise (e : exn)
| Vis (X : Type) (c : call X) (k : X -> prog A).
Arguments Ret {A} a.
Arguments Raise {A} e.
Arguments Vis {A X} c k.

Fixpoint bind {A B : Type} (p : prog A) (f : A -> prog B) : prog B :=
  match p with
  | Ret a => f a
  | Raise e => Raise e
  | Vis c k => Vis c (fun x => bind (k x) f)
  end.

(** [try { p } catch (error) { handler error }] *)
Fixpoint try_catch {A : Type} (p : prog A) (handler : exn -> prog A) : prog A :=
  match p with
  | Ret a => Ret a
  | Raise e => handler e
  | Vis c k => Vis c (fun x => try_catch (k x) handler)
  end.

Declare Scope prog_scope.
Delimit Scope prog_scope with prog.
Bind Scope prog_scope with prog.
Notation "x <- p ;; q" := (bind p (fun x => q))
  (at level 61, p at next level, right associativity) : prog_scope.
Notation "p ;; q" := (bind p (fun _ => q))
  (at level 61, right associativity) : prog_scope.
Open Scope prog_scope.

Definition perform {X : Type} (c : call X) : prog X := Vis c Ret.

(** [await] of a host call that may reject. *)
Definition await {X : Type} (c : call (settled X)) : prog X :=
  Vis c (fun r =>
    match r with
    | Fulfilled x => Ret x
    | Rejected reason => Raise (HostError reason)
    end).

(** ** Runs *)

Inductive event : Type :=
| Event (X : Type) (c : call X) (answer : X).
Arguments Event {X} c answer.

Definition trace := list event.

(** The environment answers each call, knowing what happened before. *)
Definition world := forall X : Type, trace -> call X -> X.

Inductive outcome (A : Type) : Type :=
| Returned (a : A)
| Thrown (e : exn).
Arguments Returned {A} a.
Arguments Thrown {A} e.

Fixpoint run {A : Type} (w : world) (p : prog A) (past : trace)
  : trace * outcome A :=
  match p with
  | Ret a => (past, Returned a)
  | Raise e => (past, Thrown e)
  | Vis c k => let x := w _ past c in run w (k x) (past ++ [Event c x])
  end.

(** ** Language operations on values *)

(** [${v}] in a template literal. *)
Definition ToString (v : value) : prog jstring :=
  match v with
  | VUndefined => Ret (js "undefined")
  | VNull => Ret (js "null")
  | VBool true => Ret (js "true")
  | VBool false => Ret (js "false")
  | VStr s => Ret s
  | VNum _ | VArr _ | VObj _ => await (HostToString v)
  end.

(** [v.name] for the data properties the extension reads.  None of the
    names it uses is inherited, so a missing property reads [undefined];
    reading a property of [undefined] or [null] throws. *)
Definition Get (v : value) (name : jstring) : prog value :=
  match v with
  | VUndefined | VNull => Raise TypeError
  | VObj props =>
      Ret (match lookup name props with Some x => x | None => VUndefined end)
  | VArr l =>
      Ret (if jstring_eqb name (js "length")
           then VNum (inject_Z (Z.of_nat (List.length l))) else VUndefined)
  | VStr s =>
      Ret (if jstring_eqb name (js "length")
           then VNum (inject_Z (Z.of_nat (List.length s))) else VUndefined)
  | VBool _ | VNum _ => Ret VUndefined
  end.

(** [v > 0] *)
Definition GreaterThanZero (v : value) : prog bool :=
  match v with
  | VUndefined | VNull => Ret false
  | VBool b => Ret b
  | VNum q => Ret (negb (Qle_bool q 0))
  | VStr _ | VArr _ | VObj _ => await (HostGreaterThanZero v)
  end.

Fixpoint for_each {A B : Type} (f : A -> prog B) (l : list A) : prog (list B) :=
  match l with
  | [] => Ret []
  | a :: r => b <- f a ;; bs <- for_each f r ;; Ret (b :: bs)
  end.

(** [v.map(f)]: only an array has the method. *)
Definition array_map {B : Type} (v : value) (f : value -> prog B)
  : prog (list B) :=
  match v with
  | VArr l => for_each f l
  | _ => Raise TypeError
  end.

(** [v.substring(0, n)]: only a string has the method. *)
Definition substring_method (v : value) (n : nat) : prog jstring :=
  match v with
  | VStr s => Ret (substring0 n s)
  | _ => Raise TypeError
  end.

Fixpoint intercalate (sep : jstring) (parts : list jstring) : jstring :=
  match parts with
  | [] => []
  | [p] => p
  | p :: rest => p ++ sep ++ intercalate sep rest
  end.

(** [v.join(sep)]: only an array has the method; [undefined] and [null]
    elements print as the empty string. *)
Definition array_join (v : value) (sep : jstring) : prog jstring :=
  match v with
  | VArr l =>
      parts <- for_each (fun x =>
                 match x with
                 | VUndefined | VNull => Ret []
                 | _ => ToString x
                 end) l ;;
      Ret (intercalate sep parts)
  | _ => Raise TypeError
  end.

Fixpoint indexed {A : Type} (i : nat) (l : list A) : list (jstring * A) :=
  match l with
  | [] => []
  | a :: r => (decimal i, a) :: indexed (S i) r
  end.

(** [Object.entries(v)] *)
Definition Object_entries (v : value) : prog (list (jstring * value)) :=
  match v with
  | VUndefined | VNull => Raise TypeError
  | VObj props => Ret props
  | VArr l => Ret (indexed 0 l)
  | VStr s => Ret (indexed 0 (map (fun c => VStr [c]) s))
  | VBool _ | VNum _ => Ret []
  end.

(** [encodeURIComponent(s)], a [URIError] when it throws. *)
Definition uri_component (s : jstring) : prog jstring :=
  match encodeURIComponent s with
  | Some e => Ret e
  | None => Raise URIError
  end.

(** The line feed of the escapes in the source, and the double quote. *)
Definition nl : jstring := [10%N].
Definition dquote : jstring := [34%N].

(** [`${error}`].  [fetch] and [response.json()] are the only calls inside
    the [try] block, so the error caught there is always a [HostError];
    the engine's message of the other two is not modelled. *)
Definition error_text (e : exn) : jstring :=
  match e with
  | HostError reason => reason
  | TypeError => js "TypeError"
  | URIError => js "URIError"
  end.

(** [a || d] for a string literal [d]. *)
Definition or_default (a : option jstring) (d : jstring) : jstring :=
  match a with
  | Some s => if is_empty s then d else s
  | None => d
  end.

(** ** The extension *)

(** [getConfig().get(key)] *)
Definition getConfig (key : jstring) : prog value :=
  perform (GetConfiguration (js "devkb") key).

Definition getApiUrl : prog value :=
  v <- getConfig (js "apiUrl") ;;
  Ret (if ToBoolean v then v else VStr (js "http://localhost:3001")).

Definition getDataDir : prog value :=
  v <- getConfig (js "dataDir") ;;
  Ret (if ToBoolean v then v else VStr (js ".devkb")).

Definition apiRequest (method endpoint : jstring) (data : value) : prog value :=
  base <- getApiUrl ;;
  base <- ToString base ;;
  let url := base ++ endpoint in
  try_catch
    (response <- await (Fetch url {|
         method := method;
         headers := [(js "Content-Type", js "application/json")];
         body := if ToBoolean data then Some (JSON_stringify data) else None
       |}) ;;
     await (ResponseJson response))
    (fun error =>
       perform (ShowErrorMessage (js "DevKB API error: " ++ error_text error)) ;;
       Ret VNull).

Arguments apiRequest : simpl never.

(** [result && result.success] *)
Definition succeeded (result : value) : prog bool :=
  if ToBoolean result then
    success <- Get result (js "success") ;; Ret (ToBoolean success)
  else Ret false.

Definition askQuestion : prog unit :=
  question <- perform (ShowInputBox {|
      prompt := js "Ask a question about your codebase";
      placeHolder := js "e.g., How do we handle authentication?"
    |}) ;;
  if negb (truthy question) then Ret tt else
  result <- apiRequest (js "POST") (js "/api/ask")
              (VObj [(js "question", optional question)]) ;;
  ok <- succeeded result ;;
  if ok then
    data <- Get result (js "data") ;;
    answer <- Get data (js "answer") ;;
    q <- ToString (optional question) ;;
    a <- ToString answer ;;
    doc <- perform (OpenTextDocument {|
        content := js "# Question: " ++ q ++ nl ++ nl
                   ++ js "## Answer" ++ nl ++ a;
        language := js "markdown"
      |}) ;;
    perform (ShowTextDocument doc)
  else
    perform (ShowWarningMessage
      (js "Could not get an answer. Make sure the API server is running.")).

(** The arrow function [search] maps over the entries: the quick-pick
    item of one entry. *)
Definition to_item (entry : value) : prog quick_pick_item :=
  title <- Get entry (js "title") ;;
  type <- Get entry (js "type") ;;
  content <- Get entry (js "content") ;;
  head <- substring_method content 100 ;;
  Ret {| label := title;
         description := type;
         detail := head ++ js "...";
         entry := entry |}.

Definition search : prog unit :=
  query <- perform (ShowInputBox {|
      prompt := js "Search the knowledge base";
      placeHolder := js "Enter search terms..."
    |}) ;;
  if negb (truthy query) then Ret tt else
  q <- uri_component (or_default query []) ;;
  result <- apiRequest (js "GET") (js "/api/search?q=" ++ q) VUndefined ;;
  ok <- succeeded result ;;
  found <- (if ok then
              data <- Get result (js "data") ;;
              len <- Get data (js "length") ;;
              GreaterThanZero len
            else Ret false) ;;
  if found then
    data <- Get result (js "data") ;;
    items <- array_map data to_item ;;
    selected <- perform (ShowQuickPickItems items {|
        matchOnDescription := true;
        matchOnDetail := true
      |}) ;;
    match selected with
    | Some item =>
        if ToBoolean (entry item) then
          title <- Get (entry item) (js "title") ;;
          title <- ToString title ;;
          type <- Get (entry item) (js "type") ;;
          type <- ToString type ;;
          tags <- Get (entry item) (js "tags") ;;
          tags <- array_join tags (js ", ") ;;
          content <- Get (entry item) (js "content") ;;
          content <- ToString content ;;
          doc <- perform (OpenTextDocument {|
              content := js "# " ++ title ++ nl ++ nl
                         ++ js "**Type:** " ++ type ++ nl
                         ++ js "**Tags:** " ++ tags ++ nl ++ nl
                         ++ js "---" ++ nl ++ nl ++ content;
              language := js "markdown"
            |}) ;;
          perform (ShowTextDocument doc)
        else Ret tt
    | None => Ret tt
    end
  else
    perform (ShowInformationMessage (js "No results found.")).

(** The six entry types the quick-pick offers. *)
Definition entry_types : list jstring :=
  [js "code"; js "documentation"; js "decision"; js "conversation";
   js "architecture"; js "process"].

Definition addEntry : prog unit :=
  editor <- perform ActiveTextEditor ;;
  selectedText <- match editor with
                  | Some e => t <- perform (DocumentGetText e) ;; Ret (Some t)
                  | None => Ret None
                  end ;;
  type <- perform (ShowQuickPick entry_types (js "Select entry type")) ;;
  if negb (truthy type) then Ret tt else
  title <- perform (ShowInputBox {|
      prompt := js "Enter entry title";
      placeHolder := js "e.g., Authentication Flow"
    |}) ;;
  if negb (truthy title) then Ret tt else
  content <- perform (ShowInputBox {|
      prompt := js "Enter entry content";
      placeHolder := or_default selectedText (js "Enter the knowledge content...")
    |}) ;;
  if negb (truthy content) && negb (truthy selectedText) then
    perform (ShowWarningMessage (js "Content is required"))
  else
  let content := or_default (or_else content selectedText) [] in
  tags <- perform (ShowInputBox {|
      prompt := js "Enter tags (comma-separated)";
      placeHolder := js "e.g., auth, security, jwt"
    |}) ;;
  result <- apiRequest (js "POST") (js "/api/entries")
              (VObj [(js "type", optional type);
                     (js "title", optional title);
                     (js "content", VStr content);
                     (js "tags",
                      if truthy tags
                      then VArr (map (fun t => VStr (trim t))
                                     (split comma (or_default tags [])))
                      else VArr []);
                     (js "source", VStr (js "vscode"))]) ;;
  ok <- succeeded result ;;
  if ok then
    perform (ShowInformationMessage
      (js "Entry " ++ dquote ++ or_default title [] ++ dquote
       ++ js " created successfully!"))
  else
    perform (ShowErrorMessage (js "Failed to create entry")).

Definition indexProject : prog unit :=
  workspaceFolders <- perform WorkspaceFolders ;;
  match workspaceFolders with
  | None | Some [] =>
      perform (ShowWarningMessage (js "No workspace folder open"))
  | Some (folder :: _) =>
      dir <- getDataDir ;;
      dataDir <- match dir with
                 | VStr d => Ret (path_join (fsPath folder) d)
                 | _ => Raise TypeError
                 end ;;
      present <- perform (ExistsSync dataDir) ;;
      (if negb present then await (MkdirSync dataDir true) else Ret tt) ;;
      files <- perform (FindFiles
                 {| pattern_base := folder; pattern := js "**/*" |}
                 {| pattern_base := folder;
                    pattern := js "**/node_modules/**" |}) ;;
      perform (ShowInformationMessage
        (js "Found " ++ decimal (List.length files)
         ++ js " files to index")) ;;
      perform (ShowInformationMessage
        (js "Use the DevKB CLI to index: devkb index"))
  end.

Definition showStats : prog unit :=
  result <- apiRequest (js "GET") (js "/api/stats") VUndefined ;;
  ok <- succeeded result ;;
  if ok then
    stats <- Get result (js "data") ;;
    totalEntries <- Get stats (js "totalEntries") ;;
    totalEntries <- ToString totalEntries ;;
    totalTags <- Get stats (js "totalTags") ;;
    totalTags <- ToString totalTags ;;
    searches <- Get stats (js "searchHistoryCount") ;;
    searches <- ToString searches ;;
    byType <- Get stats (js "byType") ;;
    entries <- Object_entries byType ;;
    lines <- for_each (fun tc =>
                 count <- ToString (snd tc) ;;
                 Ret (js "  " ++ fst tc ++ js ": " ++ count)) entries ;;
    perform (ShowInformationMessage
      (intercalate nl
         ([js "Total Entries: " ++ totalEntries;
           js "Unique Tags: " ++ totalTags;
           js "Searches: " ++ searches;
           js "";
           js "By Type:"] ++ lines)))
  else
    perform (ShowWarningMessage (js "Could not load statistics")).

(** The commands [activate] registers, and their handlers. *)
Inductive command : Type :=
| devkb_ask
| devkb_search
| devkb_addEntry
| devkb_index
| devkb_stats.

Definition handler (c : command) : prog unit :=
  match c with
  | devkb_ask => askQuestion
  | devkb_search => search
  | devkb_addEntry => addEntry
  | devkb_index => indexProject
  | devkb_stats => showStats
  end.

(** ** What a run shows *)

Definition collect {B : Type} (f : event -> option B) (tr : trace) : list B :=
  flat_map (fun e => match f e with Some b => [b] | None => [] end) tr.

(** The requests sent: the arguments of each [fetch]. *)
Definition request_of (e : event) : option (jstring * request_init) :=
  match e with
  | Event c _ =>
      match c with
      | Fetch url init => Some (url, init)
      | _ => None
      end
  end.

Definition requests : trace -> list (jstring * request_init) :=
  collect request_of.

(** The documents opened. *)
Definition document_of (e : event) : option text_document_init :=
  match e with
  | Event c _ =>
      match c with
      | OpenTextDocument init => Some init
      | _ => None
      end
  end.

Definition documents : trace -> list text_document_init :=
  collect document_of.

(** The notifications shown, by severity. *)
Inductive severity : Type := Error | Warning | Information.

Definition notification_of (e : event) : option (severity * jstring) :=
  match e with
  | Event c _ =>
      match c with
      | ShowErrorMessage m => Some (Error, m)
      | ShowWarningMessage m => Some (Warning, m)
      | ShowInformationMessage m => Some (Information, m)
      | _ => None
      end
  end.

Definition notifications : trace -> list (severity * jstring) :=
  collect notification_of.

(** The answers of the input boxes, by prompt. *)
Definition input_of (e : event) : option (jstring * option jstring) :=
  match e with
  | Event c a =>
      match c in call X return X -> option (jstring * option jstring) with
      | ShowInputBox o => fun a => Some (prompt o, a)
      | _ => fun _ => None
      end a
  end.

Definition inputs : trace -> list (jstring * option jstring) :=
  collect input_of.

(** The quick-picks of strings: what was offered and what was picked. *)
Definition pick_of (e : event) : option (list jstring * option jstring) :=
  match e with
  | Event c a =>
      match c in call X return X -> option (list jstring * option jstring) with
      | ShowQuickPick items _ => fun a => Some (items, a)
      | _ => fun _ => None
      end a
  end.

Definition picks : trace -> list (list jstring * option jstring) :=
  collect pick_of.

(** The quick-picks of search results: the items shown. *)
Definition shown_of (e : event) : option (list quick_pick_item) :=
  match e with
  | Event c _ =>
      match c with
      | ShowQuickPickItems items _ => Some items
      | _ => None
      end
  end.

Definition shown : trace -> list (list quick_pick_item) :=
  collect shown_of.

(** What [apiRequest] returned, read off the exchange: the parsed answer,
    or [null] when [fetch] or [response.json()] rejected. *)
Definition result_of (e : event) : option value :=
  match e with
  | Event c a =>
      match c in call X return X -> option value with
      | Fetch _ _ => fun a =>
          match a with
          | Rejected _ => Some VNull
          | Fulfilled _ => None
          end
      | ResponseJson _ => fun a =>
          match a with
          | Rejected _ => Some VNull
          | Fulfilled v => Some v
          end
      | _ => fun _ => None
      end a
  end.

Definition results : trace -> list value := collect result_of.

(** Whether [fetch] or [response.json()] rejected during the run. *)
Definition rejected_of (e : event) : option jstring :=
  match e with
  | Event c a =>
      match c in call X return X -> option jstring with
      | Fetch _ _ => fun a =>
          match a with
          | Rejected r => Some r
          | Fulfilled _ => None
          end
      | ResponseJson _ => fun a =>
          match a with
          | Rejected r => Some r
          | Fulfilled _ => None
          end
      | _ => fun _ => None
      end a
  end.

Definition rejections : trace -> list jstring := collect rejected_of.

(** The value of the configuration key, as the run read it. *)
Definition setting_of (key : jstring) (e : event) : option value :=
  match e with
  | Event c a =>
      match c in call X return X -> option value with
      | GetConfiguration _ k => fun a =>
          if jstring_eqb k key then Some a else None
      | _ => fun _ => None
      end a
  end.

Definition settings (key : jstring) : trace -> list value :=
  collect (setting_of key).

(** The paths handed to [fs.existsSync] and [fs.mkdirSync]. *)
Definition path_of (e : event) : option fs_path :=
  match e with
  | Event c _ =>
      match c with
      | ExistsSync p => Some p
      | MkdirSync p _ => Some p
      | _ => None
      end
  end.

Definition paths : trace -> list fs_path := collect path_of.

(** [v.name] as a value, [undefined] where the read would throw. *)
Definition prop (v : value) (name : jstring) : value :=
  match v with
  | VObj props =>
      match lookup name props with Some x => x | None => VUndefined end
  | _ => VUndefined
  end.

(** [result && result.success] as a truth value. *)
Definition is_success (result : value) : bool :=
  ToBoolean result && ToBoolean (prop result (js "success")).

(** ** Scripted environments, to run a command on concrete answers *)

Record script : Type := {
  setting : jstring -> value;
  typed : jstring -> option jstring;
  picked : option jstring;
  selection : option jstring;
  fetched : settled response;
  parsed : settled value;
  chosen : list quick_pick_item -> option quick_pick_item;
  folders : option (list workspace_folder);
  present : bool;
  files : list jstring
}.

Definition scripted (s : script) : world :=
  fun X _ c =>
    match c in call X return X with
    | GetConfiguration _ key => setting s key
    | Fetch _ _ => fetched s
    | ResponseJson _ => parsed s
    | ShowInputBox o => typed s (prompt o)
    | ShowQuickPick items _ =>
        match picked s with
        | Some x => if existsb (jstring_eqb x) items then Some x else None
        | None => None
        end
    | ShowQuickPickItems items _ => chosen s items
    | ShowErrorMessage _ => tt
    | ShowWarningMessage _ => tt
    | ShowInformationMessage _ => tt
    | ShowTextDocument _ => tt
    | ActiveTextEditor =>
        match selection s with
        | Some _ => Some (TextEditor 0)
        | None => None
        end
    | DocumentGetText _ => or_default (selection s) []
    | OpenTextDocument _ => TextDocument 0
    | WorkspaceFolders => folders s
    | FindFiles _ _ => files s
    | ExistsSync _ => present s
    | MkdirSync _ _ => Fulfilled tt
    | HostToString _ => Fulfilled (js "[object Object]")
    | HostGreaterThanZero _ => Fulfilled false
    end.

(** ** The shape of one [apiRequest]

    What a call of [apiRequest] adds to the run, case by case. *)

Definition api_key : call value :=
  GetConfiguration (js "devkb") (js "apiUrl").

(** The configured base, or the default when the setting is falsy. *)
Definition base_of (v : value) : value :=
  if ToBoolean v then v else VStr (js "http://localhost:3001").

Definition request (method : jstring) (data : value) : request_init := {|
  method := method;
  headers := [(js "Content-Type", js "application/json")];
  body := if ToBoolean data then Some (JSON_stringify data) else None
|}.

(** Reading the base URL: the setting, then its conversion to a string,
    which the host does for a number, an array or an object. *)
Inductive base_read : list event -> outcome jstring -> Prop :=
| base_plain (v : value) (s : jstring) :
    ToString (base_of v) = Ret s ->
    base_read [Event api_key v] (Returned s)
| base_converted (v : value) (s : jstring) :
    ToString (base_of v) = await (HostToString (base_of v)) ->
    base_read [Event api_key v;
               Event (HostToString (base_of v)) (Fulfilled s)]
              (Returned s)
| base_failed (v : value) (reason : jstring) :
    ToString (base_of v) = await (HostToString (base_of v)) ->
    base_read [Event api_key v;
               Event (HostToString (base_of v)) (Rejected reason)]
              (Thrown (HostError reason)).

Inductive exchange (method endpoint : jstring) (data : value)
  : list event -> outcome value -> Prop :=
| exchange_no_url (pre : list event) (e : exn) :
    base_read pre (Thrown e) ->
    exchange method endpoint data pre (Thrown e)
| exchange_unreachable (pre : list event) (base reason : jstring) :
    base_read pre (Returned base) ->
    exchange method endpoint data
      (pre ++ [Event (Fetch (base ++ endpoint) (request method data))
                     (Rejected reason);
               Event (ShowErrorMessage (js "DevKB API error: " ++ reason)) tt])
      (Returned VNull)
| exchange_unparsed (pre : list event) (base reason : jstring) (r : response) :
    base_read pre (Returned base) ->
    exchange method endpoint data
      (pre ++ [Event (Fetch (base ++ endpoint) (request method data))
                     (Fulfilled r);
               Event (ResponseJson r) (Rejected reason);
               Event (ShowErrorMessage (js "DevKB API error: " ++ reason)) tt])
      (Returned VNull)
| exchange_answered (pre : list event) (base : jstring) (r : response)
    (v : value) :
    base_read pre (Returned base) ->
    exchange method endpoint data
      (pre ++ [Event (Fetch (base ++ endpoint) (request method data))
                     (Fulfilled r);
               Event (ResponseJson r) (Fulfilled v)])
      (Returned v).

(** ** Programs that only render *)

(** Every call a program can make satisfies [P]. *)
Fixpoint only (P : forall X : Type, call X -> bool) {A : Type} (p : prog A)
  : Prop :=
  match p with
  | Ret _ => True
  | Raise _ => True
  | Vis c k => P _ c = true /\ forall x, only P (k x)
  end.

Definition event_call (P : forall X : Type, call X -> bool) (e : event) : bool :=
  match e with
  | Event c _ => P _ c
  end.

(** The calls a command makes once it holds the result of its request:
    it shows notifications, quick-pick items and documents, and leaves
    conversions to the host.  It asks for no input, reads no setting and
    sends nothing. *)
Definition local (X : Type) (c : call X) : bool :=
  match c with
  | ShowQuickPickItems _ _ => true
  | ShowErrorMessage _ => true
  | ShowWarningMessage _ => true
  | ShowInformationMessage _ => true
  | ShowTextDocument _ => true
  | OpenTextDocument _ => true
  | HostToString _ => true
  | HostGreaterThanZero _ => true
  | _ => false
  end.

(** The calls a command makes once the quick-pick of results is closed. *)
Definition display (X : Type) (c : call X) : bool :=
  match c with
  | ShowErrorMessage _ => true
  | ShowWarningMessage _ => true
  | ShowInformationMessage _ => true
  | ShowTextDocument _ => true
  | OpenTextDocument _ => true
  | HostToString _ => true
  | HostGreaterThanZero _ => true
  | _ => false
  end.

(** The calls other than [fetch] and [response.json()]. *)
Definition offline (X : Type) (c : call X) : bool :=
  match c with
  | Fetch _ _ => false
  | ResponseJson _ => false
  | _ => true
  end.

(** The calls that neither reach the network nor show anything: the
    conversions left to the host. *)
Definition silent (X : Type) (c : call X) : bool :=
  match c with
  | HostToString _ => true
  | HostGreaterThanZero _ => true
  | _ => false
  end.

(** ** Reading a request and the run of [addEntry] *)

(** The text selected in the active editor, when the run read it. *)
Definition selection_of (e : event) : option jstring :=
  match e with
  | Event c a =>
      match c in call X return X -> option jstring with
      | DocumentGetText _ => fun a => Some a
      | _ => fun _ => None
      end a
  end.

Definition selections : trace -> list jstring := collect selection_of.

(** The field [name] of the object a request carries in its body. *)
Definition sent (r : jstring * request_init) (name : jstring) : value :=
  match body (snd r) with
  | Some (JSON_stringify data) => prop data name
  | None => VUndefined
  end.

(** The tags [addEntry] makes of what was typed in the tags box. *)
Definition tags_of (tags : option jstring) : list jstring :=
  if truthy tags then map trim (split comma (or_default tags [])) else [].

(** The object [addEntry] hands to [apiRequest]. *)
Definition payload (type title content : jstring) (tags : list jstring)
  : value :=
  VObj [(js "type", VStr type);
        (js "title", VStr title);
        (js "content", VStr content);
        (js "tags", VArr (map VStr tags));
        (js "source", VStr (js "vscode"))].

(** A string that does not begin with white space. *)
Definition starts_clean (s : jstring) : Prop :=
  match s with
  | [] => True
  | c :: _ => is_white_space c = false
  end.

(** ** Concrete runs *)

(** The contract of [showQuickPick]: it resolves to one of the items it
    was given, or to [undefined]. *)
Definition picks_offered (w : world) : Prop :=
  forall (past : trace) (items : list jstring) (place_holder : jstring),
    match w _ past (ShowQuickPick items place_holder) with
    | Some x => In x items
    | None => True
    end.

(** The notification each command shows when its request did not succeed. *)
Definition failure_notice (c : command) : option (severity * jstring) :=
  match c with
  | devkb_ask =>
      Some (Warning,
            js "Could not get an answer. Make sure the API server is running.")
  | devkb_search => Some (Information, js "No results found.")
  | devkb_addEntry => Some (Error, js "Failed to create entry")
  | devkb_stats => Some (Warning, js "Could not load statistics")
  | devkb_index => None
  end.

(** A quick-pick item displays an entry: its title as label, its type as
    description, and the first 100 code units of its content, followed by
    three dots, as detail. *)
Definition displays (item : quick_pick_item) (e : value) : Prop :=
  entry item = e
  /\ label item = prop e (js "title")
  /\ description item = prop e (js "type")
  /\ exists text,
       prop e (js "content") = VStr text
       /\ detail item = firstn 100 text ++ js "...".

(** A user who answers every box, with a server that sends [parsed], when
    [fetch] settles as [fetched]. *)
Definition user (fetched : settled response) (parsed : settled value)
  : script := {|
  setting := fun _ => VUndefined;
  typed := fun p =>
    if jstring_eqb p (js "Ask a question about your codebase")
    then Some (js "How do we log in?")
    else if jstring_eqb p (js "Search the knowledge base")
         then Some (js "log in")
    else if jstring_eqb p (js "Enter entry title") then Some (js "Login")
    else if jstring_eqb p (js "Enter entry content")
         then Some (js "Sessions are kept in a cookie.")
    else if jstring_eqb p (js "Enter tags (comma-separated)")
         then Some (js "Auth, security")
    else None;
  picked := Some (js "decision");
  selection := None;
  fetched := fetched;
  parsed := parsed;
  chosen := fun items => hd_error items;
  folders := Some [{| fsPath := js "/home/dev/project" |}];
  present := false;
  files := [js "/home/dev/project/README.md"]
|}.

(** The server is down. *)
Definition unreachable : script :=
  user (Rejected (js "TypeError: fetch failed")) (Rejected (js "unused")).

(** The server answers a search with one entry. *)
Definition one_result : script :=
  user (Fulfilled (Response 0))
    (Fulfilled
       (VObj [(js "success", VBool true);
              (js "data",
               VArr [VObj [(js "title", VStr (js "Login"));
                           (js "type", VStr (js "decision"));
                           (js "content",
                            VStr (js "Sessions are kept in a cookie."));
                           (js "tags",
                            VArr [VStr (js "Auth");
                                  VStr (js "security")])]])])).

(** The server answers a search with no entry. *)
Definition no_result : script :=
  user (Fulfilled (Response 0))
    (Fulfilled (VObj [(js "success", VBool true); (js "data", VArr [])])).

(** The server refuses. *)
Definition refused : script :=
  user (Fulfilled (Response 0))
    (Fulfilled (VObj [(js "success", VBool false);
                      (js "error", VStr (js "q is required"))])).

(** The user adds the entry "Login" with the tag "Auth", typed with a
    capital, and the server accepts it. *)
Definition adds_login : script :=
  user (Fulfilled (Response 0))
    (Fulfilled (VObj [(js "success", VBool true)])).

(** The data directory [indexProject] looks for, with the answer of
    [fs.existsSync], and the directories it creates, with the [recursive]
    flag of [fs.mkdirSync]. *)
Definition checked_of (e : event) : option (fs_path * bool) :=
  match e with
  | Event c a =>
      match c in call X return X -> option (fs_path * bool) with
      | ExistsSync p => fun a => Some (p, a)
      | _ => fun _ => None
      end a
  end.

Definition checked : trace -> list (fs_path * bool) := collect checked_of.

Definition created_of (e : event) : option (fs_path * bool) :=
  match e with
  | Event c _ =>
      match c with
      | MkdirSync p recursive => Some (p, recursive)
      | _ => None
      end
  end.

Definition created : trace -> list (fs_path * bool) := collect created_of.

(** The server answers a question. *)
Definition answered : script :=
  user (Fulfilled (Response 0))
    (Fulfilled
       (VObj [(js "success", VBool true);
              (js "data", VObj [(js "answer", VStr (js "With a cookie."))])])).

(** The server sends its statistics. *)
Definition counted : script :=
  user (Fulfilled (Response 0))
    (Fulfilled
       (VObj [(js "success", VBool true);
              (js "data",
               VObj [(js "totalEntries", VStr (js "2"));
                     (js "totalTags", VStr (js "3"));
                     (js "searchHistoryCount", VStr (js "0"));
                     (js "byType",
                      VObj [(js "code", VStr (js "1"));
                            (js "decision", VStr (js "1"))])])])).

(** ** More to read off a run *)


(** The input boxes opened, with their options. *)
Definition box_of (e : event) : option input_box_options :=
  match e with
  | Event c _ =>
      match c with
      | ShowInputBox o => Some o
      | _ => None
      end
  end.

Definition boxes : trace -> list input_box_options := collect box_of.

(** The quick-picks of search results, with what was chosen. *)
Definition choice_of (e : event)
  : option (list quick_pick_item * option quick_pick_item) :=
  match e with
  | Event c a =>
      match c in call X
            return X -> option (list quick_pick_item * option quick_pick_item)
      with
      | ShowQuickPickItems items _ => fun a => Some (items, a)
      | _ => fun _ => None
      end a
  end.

Definition choices : trace
  -> list (list quick_pick_item * option quick_pick_item) :=
  collect choice_of.

(** The searches for files: the two patterns and the files found. *)
Definition glob_of (e : event)
  : option (relative_pattern * relative_pattern * list jstring) :=
  match e with
  | Event c a =>
      match c in call X
            return X -> option (relative_pattern * relative_pattern
                                * list jstring)
      with
      | FindFiles include exclude => fun a => Some (include, exclude, a)
      | _ => fun _ => None
      end a
  end.

Definition globs : trace
  -> list (relative_pattern * relative_pattern * list jstring) :=
  collect glob_of.

(** The documents brought to the front. *)
Definition revealed_of (e : event) : option text_document :=
  match e with
  | Event c _ =>
      match c with
      | ShowTextDocument d => Some d
      | _ => None
      end
  end.

Definition revealed : trace -> list text_document := collect revealed_of.

(** The workspace folders, as the run read them. *)
Definition folders_of (e : event) : option (option (list workspace_folder)) :=
  match e with
  | Event c a =>
      match c in call X return X -> option (option (list workspace_folder)) with
      | WorkspaceFolders => fun a => Some a
      | _ => fun _ => None
      end a
  end.

Definition workspaces : trace -> list (option (list workspace_folder)) :=
  collect folders_of.

(** ** More concrete runs *)

(** A script with other settings. *)
Definition with_settings (f : jstring -> value) (s : script) : script := {|
  setting := f;
  typed := typed s;
  picked := picked s;
  selection := selection s;
  fetched := fetched s;
  parsed := parsed s;
  chosen := chosen s;
  folders := folders s;
  present := present s;
  files := files s
|}.

(** The API and the data directory are configured, the URL with a slash
    at its end. *)
Definition configured : script :=
  with_settings
    (fun key =>
       if jstring_eqb key (js "apiUrl") then VStr (js "http://kb.local:8080/")
       else if jstring_eqb key (js "dataDir") then VStr (js "notes/kb")
       else VUndefined)
    adds_login.

(** The [apiUrl] setting is an object, which the host fails to convert. *)
Definition broken_setting : world :=
  fun X past c =>
    match c in call X return X with
    | GetConfiguration _ _ => VObj [(js "toString", VNum 1)]
    | HostToString _ =>
        Rejected (js "TypeError: Cannot convert object to primitive value")
    | c' => scripted adds_login past c'
    end.

(** The documents opened, each with the handle the editor gave for it. *)
Definition opened_of (e : event) : option (text_document_init * text_document) :=
  match e with
  | Event c a =>
      match c in call X
            return X -> option (text_document_init * text_document)
      with
      | OpenTextDocument init => fun a => Some (init, a)
      | _ => fun _ => None
      end a
  end.

Definition opened : trace -> list (text_document_init * text_document) :=
  collect opened_of.

(** The user picks a type and a title, then leaves the content box empty,
    with no editor open. *)
Definition leaves_content_empty : script := {|
  setting := fun _ => VUndefined;
  typed := fun p =>
    if jstring_eqb p (js "Enter entry title") then Some (js "Login")
    else None;
  picked := Some (js "decision");
  selection := None;
  fetched := Fulfilled (Response 0);
  parsed := Fulfilled (VObj [(js "success", VBool true)]);
  chosen := fun _ => None;
  folders := None;
  present := false;
  files := []
|}.

(** A code unit has 16 bits. *)
Definition code_unit (c : N) : Prop := (c < 65536)%N.

(** The characters [encodeURIComponent] writes: the unreserved ones (the
    hexadecimal digits are among them) and the per cent sign. *)
Definition url_safe (c : N) : bool := uri_unreserved c || (c =? 37)%N.

(** The user types an unpaired surrogate in every box. *)
Definition types_surrogate : script := {|
  setting := fun _ => VUndefined;
  typed := fun _ => Some [55357%N];
  picked := Some (js "decision");
  selection := None;
  fetched := Fulfilled (Response 0);
  parsed := Fulfilled (VObj [(js "success", VBool true)]);
  chosen := fun _ => None;
  folders := None;
  present := false;
  files := []
|}.

(** What [search] does with the answer of its quick-pick (lines 92 to 99
    of the source), on its own. *)
Definition open_selected (selected : option quick_pick_item) : prog unit :=
  match selected with
  | Some item =>
      if ToBoolean (entry item) then
        title <- Get (entry item) (js "title") ;;
        title <- ToString title ;;
        type <- Get (entry item) (js "type") ;;
        type <- ToString type ;;
        tags <- Get (entry item) (js "tags") ;;
        tags <- array_join tags (js ", ") ;;
        content <- Get (entry item) (js "content") ;;
        content <- ToString content ;;
        doc <- perform (OpenTextDocument {|
            content := js "# " ++ title ++ nl ++ nl
                       ++ js "**Type:** " ++ type ++ nl
                       ++ js "**Tags:** " ++ tags ++ nl ++ nl
                       ++ js "---" ++ nl ++ nl ++ content;
            language := js "markdown"
          |}) ;;
        perform (ShowTextDocument doc)
      else Ret tt
  | None => Ret tt
  end.

(** The options of the quick-pick of search results. *)
Definition search_options : quick_pick_options :=
  {| matchOnDescription := true; matchOnDetail := true |}.

(** The calls that only tell the user something, or convert a value. *)
Definition telling (X : Type) (c : call X) : bool :=
  match c with
  | ShowErrorMessage _ => true
  | ShowWarningMessage _ => true
  | ShowInformationMessage _ => true
  | HostToString _ => true
  | HostGreaterThanZero _ => true
  | _ => false
  end.

(** A program that throws, whatever the answers to its calls. *)
Fixpoint throws {A : Type} (p : prog A) : Prop :=
  match p with
  | Ret _ => False
  | Raise _ => True
  | Vis c k => forall x, throws (k x)
  end.


(** The server answers a search with an entry that has no tags. *)
Definition untagged_result : script :=
  user (Fulfilled (Response 0))
    (Fulfilled
       (VObj [(js "success", VBool true);
              (js "data",
               VArr [VObj [(js "title", VStr (js "Login"));
                           (js "type", VStr (js "decision"));
                           (js "content",
                            VStr (js "Sessions are kept in a cookie."))]])])).

(** The server sends statistics without the counts by type. *)
Definition stats_without_types : script :=
  user (Fulfilled (Response 0))
    (Fulfilled
       (VObj [(js "success", VBool true);
              (js "data",
               VObj [(js "totalEntries", VStr (js "2"));
                     (js "totalTags", VStr (js "3"));
                     (js "searchHistoryCount", VStr (js "0"))])])).

(** No folder is open in the editor. *)
Definition no_folder : world :=
  fun X past c =>
    match c in call X return X with
    | WorkspaceFolders => None
    | c' => scripted adds_login past c'
    end.

(** The directory cannot be created. *)
Definition read_only : world :=
  fun X past c =>
    match c in call X return X with
    | MkdirSync _ _ =>
        Rejected (js "Error: EROFS: read-only file system, mkdir")
    | c' => scripted adds_login past c'
    end.

(** The user dismisses every input box. *)
Definition dismisses : world :=
  fun X past c =>
    match c in call X return X with
    | ShowInputBox _ => None
    | c' => scripted adds_login past c'
    end.

(** The two patterns of the file search of [indexProject]. *)
Definition every_file (folder : workspace_folder) : relative_pattern :=
  {| pattern_base := folder; pattern := js "**/*" |}.

Definition in_node_modules (folder : workspace_folder) : relative_pattern :=
  {| pattern_base := folder; pattern := js "**/node_modules/**" |}.

(** The lines of the statistics message, [counts] being the lines by
    type. *)
Definition stats_lines (totalEntries totalTags searches : jstring)
    (counts : list (jstring * jstring)) : list jstring :=
  [js "Total Entries: " ++ totalEntries;
   js "Unique Tags: " ++ totalTags;
   js "Searches: " ++ searches;
   js "";
   js "By Type:"]
  ++ map (fun tc => js "  " ++ fst tc ++ js ": " ++ snd tc) counts.

(** The server answers a search with two entries, the second one without
    content. *)
Definition entry_without_content : script :=
  user (Fulfilled (Response 0))
    (Fulfilled
       (VObj [(js "success", VBool true);
              (js "data",
               VArr [VObj [(js "title", VStr (js "Login"));
                           (js "type", VStr (js "decision"));
                           (js "content",
                            VStr (js "Sessions are kept in a cookie."));
                           (js "tags", VArr [VStr (js "Auth")])];
                     VObj [(js "title", VStr (js "Logout"));
                           (js "type", VStr (js "note"));
                           (js "tags", VArr [])]])])).

(** ** The base and the query of a request *)

(** A setting that becomes a string without the host. *)
Definition plain_setting (v : value) : Prop :=
  match v with
  | VNum _ | VArr _ | VObj _ => False
  | _ => True
  end.

(** The base of a URL, for the [apiUrl] setting [v]: the setting or the
    default, as a string; what the host made of it when the conversion was
    left to the host. *)
Definition base_text (v : value) (base : jstring) : Prop :=
  match ToString (base_of v) with
  | Ret s => base = s
  | _ => True
  end.


(** The user has selected text in the editor and dismisses the content
    box. *)
Definition selects_text : script := {|
  setting := fun _ => VUndefined;
  typed := fun p =>
    if jstring_eqb p (js "Enter entry title") then Some (js "Login")
    else if jstring_eqb p (js "Enter tags (comma-separated)")
         then Some (js "auth")
    else None;
  picked := Some (js "code");
  selection := Some (js "session.save(cookie)");
  fetched := Fulfilled (Response 0);
  parsed := Fulfilled (VObj [(js "success", VBool true)]);
  chosen := fun _ => None;
  folders := None;
  present := false;
  files := []
|}.
(** * Properties *)

(** ** Runs compose *)

Lemma run_bind (A B : Type) (w : world) (p : prog A) (f : A -> prog B) :
  forall past,
    run w (bind p f) past
    = match run w p past with
      | (tr, Returned a) => run w (f a) tr
      | (tr, Thrown e) => (tr, Thrown e)
      end.
Proof.
  induction p as [a | e | X c k IH]; intros past; simpl; auto.
Qed.

Lemma run_try_catch (A : Type) (w : world) (p : prog A) (h : exn -> prog A) :
  forall past,
    run w (try_catch p h) past
    = match run w p past with
      | (tr, Returned a) => (tr, Returned a)
      | (tr, Thrown e) => run w (h e) tr
      end.
Proof.
  induction p as [a | e | X c k IH]; intros past; simpl; auto.
Qed.

(** A run only adds to what happened before. *)
Lemma run_extends (A : Type) (w : world) (p : prog A) :
  forall past, exists evs, fst (run w p past) = past ++ evs.
Proof.
  induction p as [a | e | X c k IH]; intros past; simpl.
  - exists []. now rewrite app_nil_r.
  - exists []. now rewrite app_nil_r.
  - destruct (IH (w X past c) (past ++ [Event c (w X past c)])) as [evs E].
    exists (Event c (w X past c) :: evs). rewrite E. now rewrite <- app_assoc.
Qed.

Lemma collect_app (B : Type) (f : event -> option B) (a b : trace) :
  collect f (a ++ b) = collect f a ++ collect f b.
Proof. unfold collect. apply flat_map_app. Qed.

(** ** One [apiRequest] *)

Lemma base_read_run (w : world) (past : trace) :
  exists evs o,
    run w (base <- getApiUrl ;; ToString base) past = (past ++ evs, o)
    /\ base_read evs o.
Proof.
  unfold getApiUrl, getConfig. simpl.
  fold api_key. set (v := w value past api_key).
  fold (base_of v).
  destruct (ToString (base_of v)) as [s | e | X c k] eqn:E.
  - exists [Event api_key v], (Returned s). split; [reflexivity|].
    now apply base_plain.
  - exfalso. destruct (base_of v) as [| | [|] | | | |]; discriminate.
  - assert (E' : ToString (base_of v) = await (HostToString (base_of v)))
      by (destruct (base_of v) as [| | [|] | | | |]; try discriminate; reflexivity).
    rewrite <- E, E'. simpl.
    set (past' := past ++ [Event api_key v]).
    destruct (w _ past' (HostToString (base_of v))) as [s | reason] eqn:A.
    + exists [Event api_key v; Event (HostToString (base_of v)) (Fulfilled s)],
        (Returned s).
      split; [| now apply base_converted].
      simpl. unfold past'. now rewrite <- app_assoc.
    + exists [Event api_key v; Event (HostToString (base_of v)) (Rejected reason)],
        (Thrown (HostError reason)).
      split; [| now apply base_failed].
      simpl. unfold past'. now rewrite <- app_assoc.
Qed.

Lemma apiRequest_run (w : world) (method endpoint : jstring) (data : value)
    (past : trace) :
  exists evs o,
    run w (apiRequest method endpoint data) past = (past ++ evs, o)
    /\ exchange method endpoint data evs o.
Proof.
  destruct (base_read_run w past) as (pre & o & R & B).
  unfold apiRequest.
  unfold getApiUrl, getConfig in *. simpl in R. simpl.
  rewrite run_bind, R.
  destruct o as [base | e].
  - fold (request method data). simpl.
    set (past' := past ++ pre).
    set (f := Fetch (base ++ endpoint) (request method data)).
    destruct (w _ past' f) as [r | reason] eqn:F; simpl.
    + set (past'' := past' ++ [Event f (Fulfilled r)]).
      destruct (w _ past'' (ResponseJson r)) as [v | reason] eqn:J; simpl.
      * exists (pre ++ [Event f (Fulfilled r); Event (ResponseJson r) (Fulfilled v)]),
          (Returned v).
        split; [| now apply exchange_answered].
        unfold past'', past'. now rewrite <- !app_assoc.
      * exists (pre ++ [Event f (Fulfilled r);
                        Event (ResponseJson r) (Rejected reason);
                        Event (ShowErrorMessage
                                 (js "DevKB API error: " ++ reason)) tt]),
          (Returned VNull).
        split; [| now apply exchange_unparsed].
        destruct (w unit _ _). unfold past'', past'.
        now rewrite <- !app_assoc.
    + exists (pre ++ [Event f (Rejected reason);
                      Event (ShowErrorMessage
                               (js "DevKB API error: " ++ reason)) tt]),
        (Returned VNull).
      split; [| now apply exchange_unreachable].
      destruct (w unit _ _). unfold past'.
      now rewrite <- !app_assoc.
  - exists pre, (Thrown e). split; [reflexivity | now apply exchange_no_url].
Qed.

(** ** Programs that only render *)

Lemma only_bind (P : forall X : Type, call X -> bool) (A B : Type)
    (p : prog A) (f : A -> prog B) :
  only P p -> (forall a, only P (f a)) -> only P (bind p f).
Proof.
  intros Hp Hf. induction p as [a | e | X c k IH]; simpl in *; auto.
  destruct Hp as [Hc Hk]. split; auto.
Qed.

Lemma only_run (P : forall X : Type, call X -> bool) (A : Type) (w : world)
    (p : prog A) :
  only P p ->
  forall past, exists evs o,
    run w p past = (past ++ evs, o)
    /\ Forall (fun e => event_call P e = true) evs.
Proof.
  induction p as [a | e | X c k IH]; simpl; intros H past.
  - exists [], (Returned a). now rewrite app_nil_r.
  - exists [], (Thrown e). now rewrite app_nil_r.
  - destruct H as [Hc Hk].
    destruct (IH (w X past c) (Hk _) (past ++ [Event c (w X past c)]))
      as (evs & o & R & F).
    exists (Event c (w X past c) :: evs), o. split.
    + rewrite R. now rewrite <- app_assoc.
    + constructor; auto.
Qed.

Lemma collect_none (B : Type) (f : event -> option B) (evs : trace) :
  Forall (fun e => f e = None) evs -> collect f evs = [].
Proof.
  induction 1 as [| e evs He _ IH]; simpl; auto.
  now rewrite He.
Qed.

Lemma collect_only (P : forall X : Type, call X -> bool) (B : Type)
    (f : event -> option B) (evs : trace) :
  (forall X (c : call X) (x : X), P X c = true -> f (Event c x) = None) ->
  Forall (fun e => event_call P e = true) evs ->
  collect f evs = [].
Proof.
  intros Hf H. apply collect_none.
  eapply Forall_impl; [| exact H].
  intros [X c x]; simpl. apply Hf.
Qed.

Lemma only_Get (P : forall X : Type, call X -> bool) (v : value) (name : jstring) :
  only P (Get v name).
Proof. destruct v; simpl; auto. Qed.

Lemma only_ToString (P : forall X : Type, call X -> bool) (v : value) :
  (forall X (c : call X), silent c = true -> P X c = true) ->
  only P (ToString v).
Proof.
  intros H. destruct v as [| | [|] | | | |]; simpl; auto;
    (split; [now apply H | intros [t | r]; simpl; auto]).
Qed.

Lemma only_GreaterThanZero (P : forall X : Type, call X -> bool) (v : value) :
  (forall X (c : call X), silent c = true -> P X c = true) ->
  only P (GreaterThanZero v).
Proof.
  intros H. destruct v; simpl; auto;
    (split; [now apply H | intros [b' | r]; simpl; auto]).
Qed.

Lemma only_for_each (P : forall X : Type, call X -> bool) (A B : Type)
    (f : A -> prog B) (l : list A) :
  (forall a, only P (f a)) -> only P (for_each f l).
Proof.
  intros Hf. induction l as [| a l IH]; simpl; auto.
  apply only_bind; auto. intros b. apply only_bind; simpl; auto.
Qed.

Lemma only_succeeded (P : forall X : Type, call X -> bool) (v : value) :
  only P (succeeded v).
Proof.
  unfold succeeded. destruct (ToBoolean v); simpl; auto.
  apply only_bind; simpl; auto. apply only_Get.
Qed.

Lemma succeeded_pure (result : value) :
  succeeded result = Ret (is_success result).
Proof.
  unfold succeeded, is_success.
  destruct result as [| | [|] | q | [| c s] | l | props]; simpl; auto.
  destruct (Qeq_bool q 0); simpl; auto.
Qed.

Ltac side :=
  let k := fresh in
  intros ? k; destruct k; simpl; intros; (discriminate || reflexivity).

Ltac only_calls :=
  repeat first
    [ apply only_Get
    | apply only_ToString; [side]
    | apply only_GreaterThanZero; [side]
    | apply only_succeeded
    | apply only_for_each; intro
    | apply only_bind; [| intro]
    | progress (simpl; auto)
    | progress unfold array_map, substring_method, array_join, Object_entries
    | match goal with
      | |- only _ (if ?b then _ else _) => destruct b
      | |- only _ (match ?x with _ => _ end) => destruct x
      | |- _ /\ _ => split
      | |- forall _, _ => intro
      end ].

(** A command is what it does before the request, one [apiRequest], and
    what it does with the result, which is rendering only. *)
Lemma run_api_then (w : world) (m e : jstring) (d : value)
    (tail : value -> prog unit) (past : trace) :
  (forall v, only local (tail v)) ->
  exists evs o rest final,
    run w (bind (apiRequest m e d) tail) past = (past ++ evs ++ rest, final)
    /\ exchange m e d evs o
    /\ Forall (fun ev => event_call local ev = true) rest
    /\ match o with
       | Returned v =>
           run w (tail v) (past ++ evs) = (past ++ evs ++ rest, final)
       | Thrown x => rest = [] /\ final = Thrown x
       end.
Proof.
  intros Htail.
  destruct (apiRequest_run w m e d past) as (evs & o & R & E).
  rewrite run_bind, R. destruct o as [v | x].
  - destruct (@only_run local _ w (tail v) (Htail v) (past ++ evs))
      as (rest & final & R' & F).
    exists evs, (Returned v), rest, final.
    rewrite R', <- app_assoc. auto.
  - exists evs, (Thrown x), [], (Thrown x).
    rewrite app_nil_r. auto.
Qed.

Lemma base_read_collect (pre : list event) (o : outcome jstring) :
  base_read pre o ->
  forall (B : Type) (f : event -> option B),
    (forall v, f (Event api_key v) = None) ->
    (forall v a, f (Event (HostToString v) a) = None) ->
    collect f pre = [].
Proof.
  intros H B f H1 H2. destruct H; simpl; now rewrite ?H1, ?H2.
Qed.

Ltac quiet_base f :=
  match goal with
  | B : base_read ?pre _ |- _ =>
      rewrite (@base_read_collect pre _ B _ f (fun _ => eq_refl)
                 (fun _ _ => eq_refl))
  end.

Lemma exchange_requests (m e : jstring) (d : value) (evs : list event)
    (o : outcome value) :
  exchange m e d evs o ->
  requests evs = []
  \/ exists base, requests evs = [(base ++ e, request m d)].
Proof.
  intros H. unfold requests.
  destruct H as [pre x B | pre base reason B | pre base reason r B
                | pre base r v B];
    rewrite ?collect_app; quiet_base request_of; simpl; eauto.
Qed.

Lemma exchange_collect (m e : jstring) (d : value) (evs : list event)
    (o : outcome value) :
  exchange m e d evs o ->
  forall (B : Type) (f : event -> option B),
    (forall v, f (Event api_key v) = None) ->
    (forall v a, f (Event (HostToString v) a) = None) ->
    (forall u i a, f (Event (Fetch u i) a) = None) ->
    (forall r a, f (Event (ResponseJson r) a) = None) ->
    (forall t, f (Event (ShowErrorMessage t) tt) = None) ->
    collect f evs = [].
Proof.
  intros H B f H1 H2 H3 H4 H5.
  destruct H as [pre x R | pre base reason R | pre base reason r R
                | pre base r v R];
    rewrite ?collect_app, (base_read_collect R f H1 H2);
    simpl; now rewrite ?H3, ?H4, ?H5.
Qed.

Ltac quiet_exchange f :=
  match goal with
  | E : exchange _ _ _ ?evs _ |- _ =>
      rewrite (@exchange_collect _ _ _ evs _ E _ f (fun _ => eq_refl)
                 (fun _ _ => eq_refl) (fun _ _ _ => eq_refl)
                 (fun _ _ => eq_refl) (fun _ => eq_refl))
  end.

Ltac quiet_rest f :=
  match goal with
  | F : Forall (fun ev => event_call local ev = true) ?rest |- _ =>
      rewrite (@collect_only local _ f rest
                 ltac:(side) F)
  end.

Ltac split_run w :=
  match goal with
  | |- context [run w (bind (apiRequest ?m ?e ?d) ?k) ?past] =>
      let evs := fresh "evs" in
      let o := fresh "o" in
      let rest := fresh "rest" in
      let final := fresh "final" in
      let R := fresh "R" in
      let E := fresh "E" in
      let F := fresh "F" in
      let T := fresh "T" in
      destruct (@run_api_then w m e d k past) as (evs & o & rest & final & R & E & F & T);
      [ intro; only_calls | rewrite R ]
  end.


Lemma escape_nonempty (cp : N) : escape cp <> [].
Proof.
  unfold escape, utf8.
  destruct (cp <? 128)%N; [discriminate|].
  destruct (cp <? 2048)%N; [discriminate|].
  destruct (cp <? 65536)%N; discriminate.
Qed.

Lemma encodeURIComponent_nonempty (s enc : jstring) :
  encodeURIComponent s = Some enc -> s <> [] -> enc <> [].
Proof.
  destruct s as [| c r]; [congruence|]. intros E _.
  unfold encodeURIComponent in E; fold encodeURIComponent in E.
  destruct (uri_unreserved c).
  { destruct (encodeURIComponent r); inversion E. discriminate. }
  destruct (is_trailing_surrogate c); [discriminate|].
  destruct (is_leading_surrogate c).
  - destruct r as [| d r']; [discriminate|].
    destruct (is_trailing_surrogate d); [|discriminate].
    destruct (encodeURIComponent r'); inversion E.
    intros Z. apply app_eq_nil in Z. destruct Z as [Z _].
    now apply escape_nonempty in Z.
  - destruct (encodeURIComponent r); inversion E.
    intros Z. apply app_eq_nil in Z. destruct Z as [Z _].
    now apply escape_nonempty in Z.
Qed.


(** ** Strings: [trim] is idempotent *)

Lemma trimStart_clean (s : jstring) : starts_clean (trimStart s).
Proof.
  induction s as [| c r IH]; simpl; auto.
  destruct (is_white_space c) eqn:W; simpl; auto.
Qed.

Lemma trimStart_fixed (s : jstring) : starts_clean s -> trimStart s = s.
Proof.
  destruct s as [| c r]; simpl; auto. now intros ->.
Qed.

Lemma trimStart_suffix (s : jstring) : exists p, s = p ++ trimStart s.
Proof.
  induction s as [| c r [p IH]]; simpl.
  - now exists [].
  - destruct (is_white_space c).
    + exists (c :: p). simpl. now rewrite <- IH.
    + now exists [].
Qed.

Lemma trimEnd_clean (s : jstring) : starts_clean s -> starts_clean (trimEnd s).
Proof.
  unfold trimEnd. intros H.
  destruct (trimStart_suffix (rev s)) as [p E].
  assert (S : s = rev (trimStart (rev s)) ++ rev p).
  { rewrite <- rev_app_distr, <- E. now rewrite rev_involutive. }
  destruct (rev (trimStart (rev s))) as [| c r]; simpl; auto.
  rewrite S in H. exact H.
Qed.

Lemma trim_idempotent (s : jstring) : trim (trim s) = trim s.
Proof.
  unfold trim.
  rewrite (trimStart_fixed (trimEnd (trimStart s))).
  - unfold trimEnd. rewrite rev_involutive.
    now rewrite (trimStart_fixed _ (trimStart_clean _)).
  - apply trimEnd_clean, trimStart_clean.
Qed.

(** ** The requests of [addEntry] *)

Lemma tags_value (tg : option jstring) :
  (if truthy tg
   then VArr (map (fun t => VStr (trim t)) (split comma (or_default tg [])))
   else VArr [])
  = VArr (map VStr (tags_of tg)).
Proof.
  unfold tags_of. destruct (truthy tg); [| reflexivity].
  now rewrite map_map.
Qed.

(** Whatever the environment answers, a request of [addEntry] carries a
    picked type, a typed title, the typed content or else the selection,
    and the tags made of the tags box. *)
Lemma addEntry_requests (w : world) :
  let tr := fst (run w addEntry []) in
  Forall (fun r =>
    exists base ty ti ci tg past,
      let sel := hd_error (selections tr) in
      w _ past (ShowQuickPick entry_types (js "Select entry type")) = Some ty
      /\ picks tr = [(entry_types, Some ty)]
      /\ inputs tr = [(js "Enter entry title", Some ti);
                      (js "Enter entry content", ci);
                      (js "Enter tags (comma-separated)", tg)]
      /\ ty <> [] /\ ti <> []
      /\ or_default (or_else ci sel) [] <> []
      /\ r = (base ++ js "/api/entries",
              request (js "POST")
                (payload ty ti (or_default (or_else ci sel) []) (tags_of tg))))
    (requests tr).
Proof.
  unfold addEntry. cbn.
  destruct (w _ [] ActiveTextEditor) as [ed |]; cbn;
    [destruct (w _ _ (DocumentGetText ed)) as [| c0 sel]; cbn |];
    (destruct (w _ _ (ShowQuickPick _ _)) as [[| c1 ty] |] eqn:P; cbn;
     try apply Forall_nil);
    (destruct (w _ _ (ShowInputBox _)) as [[| c2 ti] |]; cbn;
     try apply Forall_nil);
    (destruct (w _ _ (ShowInputBox _)) as [[| c3 ci] |]; cbn;
     try apply Forall_nil);
    match goal with
    | |- context [w ?X ?p (ShowInputBox ?o)] =>
        generalize (w X p (ShowInputBox o))
    end;
    intros tg; rewrite tags_value;
    split_run w; cbn [fst];
    unfold inputs, requests, picks, selections; rewrite !collect_app;
    quiet_exchange input_of; quiet_rest input_of;
    quiet_exchange pick_of; quiet_rest pick_of;
    quiet_exchange selection_of; quiet_rest selection_of;
    quiet_rest request_of;
    cbn [collect flat_map app input_of pick_of selection_of request_of
         prompt hd_error];
    rewrite ?app_nil_r;
    (destruct (exchange_requests E) as [Q | [base Q]]; unfold requests in Q;
     rewrite Q; [apply Forall_nil | apply Forall_cons; [| apply Forall_nil]]);
    exists base; do 5 eexists; cbn zeta;
    (split; [exact P |]);
    (split; [reflexivity |]); (split; [reflexivity |]);
    (split; [discriminate |]); (split; [discriminate |]);
    (split; [cbn; discriminate | reflexivity]).
Qed.

Ltac no_request w :=
  lazymatch goal with
  | |- context [run w (bind (apiRequest _ _ _) _) _] => fail
  | _ => idtac
  end.

Ltac step w :=
  no_request w;
  match goal with
  | |- context [w ?X ?p ?c] => destruct (w X p c) eqn:?
  | |- context [uri_component ?s] =>
      unfold uri_component; destruct (encodeURIComponent s) eqn:?
  | |- context [is_empty ?s] => is_var s; destruct s
  | |- context [match ?s with [] => _ | _ :: _ => _ end] =>
      is_var s; destruct s
  end;
  cbn.

Ltac prefix w := cbn; repeat step w.

Ltac at_request w :=
  repeat match goal with
         | |- context [w ?X ?p ?c] => generalize (w X p c); intro
         end;
  split_run w; cbn [fst snd].

Lemma addEntry_picks (w : world) :
  Forall (fun p => fst p = entry_types) (picks (fst (run w addEntry []))).
Proof.
  unfold addEntry. prefix w.
  all: try (repeat constructor).
  all: at_request w.
  all: unfold picks; rewrite !collect_app; quiet_exchange pick_of; quiet_rest pick_of.
  all: cbn; repeat constructor.
Qed.

Lemma jstring_eqb_eq (a b : jstring) : jstring_eqb a b = true -> a = b.
Proof.
  revert b. induction a as [| x a IH]; destruct b as [| y b]; simpl;
    try discriminate; auto.
  intros H. apply andb_true_iff in H. destruct H as [H1 H2].
  apply N.eqb_eq in H1. subst. f_equal. auto.
Qed.

Lemma scripted_picks_offered (s : script) : picks_offered (scripted s).
Proof.
  intros past items ph. simpl.
  destruct (picked s) as [x |]; auto.
  destruct (existsb (jstring_eqb x) items) eqn:E; auto.
  apply existsb_exists in E. destruct E as (y & I & E).
  apply jstring_eqb_eq in E. now subst.
Qed.

Lemma exchange_failure (m e : jstring) (d : value) (evs : list event)
    (o : outcome value) :
  exchange m e d evs o ->
  rejections evs = []
  \/ exists reason,
       o = Returned VNull
       /\ rejections evs = [reason]
       /\ results evs = [VNull]
       /\ notifications evs = [(Error, js "DevKB API error: " ++ reason)].
Proof.
  intros H. unfold rejections, results, notifications.
  destruct H as [pre x B | pre base reason B | pre base reason r B
                | pre base r v B];
    rewrite ?collect_app;
    try quiet_base rejected_of; try quiet_base result_of;
    try quiet_base notification_of; simpl; eauto.
  - right. exists reason. auto.
  - right. exists reason. auto.
Qed.

(** What a command does once [apiRequest] has returned [null]. *)
Ltac null_tail w T :=
  rewrite app_assoc in T;
  match type of T with
  | run _ _ ?p = _ =>
      let q := fresh "q" in
      let Hq := fresh "Hq" in
      remember p as q eqn:Hq; cbn in T;
      repeat match type of T with
             | context [w unit ?a ?c] => destruct (w unit a c)
             end;
      let T1 := fresh "T" in
      let T2 := fresh "T" in
      injection T as T1 T2; apply app_inv_head in T1;
      subst
  end.

Ltac observe :=
  unfold rejections, results, notifications, documents, requests, inputs,
    picks, shown, selections in *;
  rewrite ?collect_app.

Lemma indexProject_offline : only offline indexProject.
Proof. unfold indexProject, getDataDir, getConfig. only_calls. Qed.

Lemma indexProject_no_rejection (w : world) :
  rejections (fst (run w indexProject [])) = [].
Proof.
  destruct (@only_run offline _ w indexProject indexProject_offline [])
    as (evs & o & R & F).
  rewrite R. cbn [fst app]. unfold rejections.
  apply (@collect_only offline _ rejected_of evs); [side | exact F].
Qed.

Lemma command_failure (w : world) (c : command) :
  let r := run w (handler c) [] in
  rejections (fst r) <> [] ->
  exists reason notice,
    rejections (fst r) = [reason]
    /\ results (fst r) = [VNull]
    /\ failure_notice c = Some notice
    /\ notifications (fst r)
       = [(Error, js "DevKB API error: " ++ reason); notice]
    /\ documents (fst r) = []
    /\ snd r = Returned tt.
Proof.
  destruct c; cbn [handler];
    [ | | | intros H; contradiction H; apply indexProject_no_rejection | ];
    [unfold askQuestion | unfold search | unfold addEntry | unfold showStats];
    prefix w.
  all: try (intros H; now contradiction H).
  all: at_request w.
  all: destruct (exchange_failure E) as [Q | (reason & -> & Q & Q1 & Q2)];
    [ intros H; contradiction H;
      unfold rejections in *; rewrite !collect_app, Q;
      quiet_rest rejected_of; reflexivity
    | intros _; null_tail w T;
      exists reason; eexists; observe; rewrite Q, Q1, Q2;
      quiet_exchange document_of;
      cbn; repeat split; reflexivity ].
Qed.

Lemma apiRequest_failure (w : world) (m e : jstring) (d : value)
    (past : trace) :
  let r := run w (apiRequest m e d) past in
  rejections (fst r) <> rejections past ->
  snd r = Returned VNull
  /\ exists before reason,
       fst r = before
               ++ [Event (ShowErrorMessage (js "DevKB API error: " ++ reason))
                         tt].
Proof.
  destruct (apiRequest_run w m e d past) as (evs & o & R & E).
  rewrite R. cbn [fst snd]. unfold rejections. rewrite collect_app.
  destruct E as [pre x B | pre base reason B | pre base reason r B
                | pre base r v B];
    rewrite ?collect_app; quiet_base rejected_of; cbn; intros H.
  - contradiction H. now rewrite app_nil_r.
  - split; [reflexivity |].
    exists (past ++ pre
            ++ [Event (Fetch (base ++ e) (request m d)) (Rejected reason)]),
      reason.
    now rewrite <- !app_assoc.
  - split; [reflexivity |].
    exists (past ++ pre
            ++ [Event (Fetch (base ++ e) (request m d)) (Fulfilled r);
                Event (ResponseJson r) (Rejected reason)]),
      reason.
    now rewrite <- !app_assoc.
  - contradiction H. now rewrite app_nil_r.
Qed.


(** ** The results of a search *)

Lemma is_success_object (v : value) :
  is_success v = true -> exists props, v = VObj props.
Proof.
  unfold is_success.
  destruct v as [| | b | q | s | l | props]; simpl;
    rewrite ?andb_false_r; try discriminate.
  intros _. now exists props.
Qed.

Lemma Get_object (props : list (jstring * value)) (name : jstring) :
  Get (VObj props) name = Ret (prop (VObj props) name).
Proof. reflexivity. Qed.

Lemma Get_array_length (l : list value) :
  Get (VArr l) (js "length")
  = Ret (VNum (inject_Z (Z.of_nat (List.length l)))).
Proof. reflexivity. Qed.

Lemma length_positive (n : nat) :
  negb (Qle_bool (inject_Z (Z.of_nat (S n))) 0) = true.
Proof.
  unfold Qle_bool, inject_Z. cbn [Qnum Qden].
  rewrite Z.mul_1_r, Z.mul_0_l.
  destruct (Z.leb_spec (Z.of_nat (S n)) 0); [lia | reflexivity].
Qed.

Lemma to_item_cases (e : value) :
  to_item e = Raise TypeError
  \/ exists item, to_item e = Ret item /\ displays item e.
Proof.
  unfold to_item.
  destruct e as [| | b | q | s | l | props]; try (left; reflexivity).
  rewrite !Get_object. cbn [bind].
  destruct (prop (VObj props) (js "content")) as [| | b | q | s | l | ps] eqn:C;
    try (left; reflexivity).
  right. eexists. split; [reflexivity |].
  unfold displays. cbn [entry label description detail].
  repeat split. exists s. split; [exact C | reflexivity].
Qed.

Lemma for_each_to_item (l : list value) :
  for_each to_item l = Raise TypeError
  \/ exists items, for_each to_item l = Ret items /\ Forall2 displays items l.
Proof.
  induction l as [| e l IH]; cbn [for_each].
  - right. exists []. split; [reflexivity | constructor].
  - destruct (to_item_cases e) as [-> | (item & -> & D)]; cbn [bind].
    + now left.
    + destruct IH as [-> | (items & -> & F)]; cbn [bind].
      * now left.
      * right. exists (item :: items). split; [reflexivity |].
        now constructor.
Qed.

Lemma exchange_results (m e : jstring) (d : value) (evs : list event)
    (v : value) :
  exchange m e d evs (Returned v) -> results evs = [v].
Proof.
  intros H. unfold results.
  inversion H as [pre x B | pre base reason B | pre base reason r B
                 | pre base r v' B]; subst;
    rewrite ?collect_app; quiet_base result_of; reflexivity.
Qed.

(** What [T], the run of the rest of a command, adds when the rest only
    makes calls of [P]. *)
Ltac tail_only P T :=
  match type of T with
  | run ?w ?p ?q = (_, _) =>
      let O := fresh "O" in
      let added := fresh "added" in
      let o := fresh "o" in
      let R := fresh "R" in
      let F := fresh "F" in
      let T1 := fresh "T" in
      let T2 := fresh "T" in
      assert (O : only P p) by only_calls;
      destruct (@only_run P _ w p O q) as (added & o & R & F);
      rewrite R in T; injection T as T1 T2;
      rewrite <- ?app_assoc in T1; apply app_inv_head in T1;
      rewrite <- ?T1, <- ?T2 in *; clear T1 T2
  end.

Ltac quiet P f :=
  match goal with
  | F : Forall (fun ev => event_call P ev = true) ?l |- _ =>
      rewrite (@collect_only P _ f l ltac:(side) F)
  end.

Lemma search_shown (w : world) :
  let tr := fst (run w search []) in
  Forall (fun items =>
    exists v entries,
      results tr = [v]
      /\ is_success v = true
      /\ prop v (js "data") = VArr entries
      /\ entries <> []
      /\ Forall2 displays items entries)
    (shown tr).
Proof.
  unfold search. prefix w.
  all: try apply Forall_nil.
  at_request w.
  observe. quiet_exchange shown_of. quiet_exchange result_of || idtac.
  cbn [collect flat_map app shown_of result_of].
  destruct o as [v | x].
  2: { destruct T as [-> _]. apply Forall_nil. }
  pose proof (exchange_results E) as V. unfold results in V. rewrite V.
  quiet_rest result_of. cbn [app].
  rewrite app_assoc in T.
  match type of T with run _ _ ?q = _ => remember q as past eqn:Hp end.
  rewrite succeeded_pure in T. cbn [bind] in T.
  destruct (is_success v) eqn:S.
  - destruct (is_success_object v S) as [props ->].
    rewrite !Get_object in T. cbn [bind] in T.
    destruct (prop (VObj props) (js "data")) as [| | b | q | s | l | ps] eqn:D.
    all: try (tail_only display T; quiet display shown_of;
              apply Forall_nil).
    rewrite Get_array_length in T. cbn [bind GreaterThanZero] in T.
    destruct l as [| e l].
    { change (negb (Qle_bool (inject_Z (Z.of_nat (@List.length value []))) 0))
        with false in T.
      cbn [bind] in T. tail_only display T. quiet display shown_of.
      apply Forall_nil. }
    cbn [List.length] in T. rewrite length_positive in T.
    unfold array_map in T.
    destruct (for_each_to_item (e :: l)) as [I | (items & I & D2)];
      rewrite I in T; cbn [bind] in T.
    { tail_only display T. quiet display shown_of. apply Forall_nil. }
    cbn [run] in T.
    match type of T with
    | context [w ?X ?a ?c] => generalize dependent (w X a c); intros x T
    end.
    tail_only display T. rewrite collect_app. quiet display shown_of.
    cbn [collect flat_map shown_of app].
    apply Forall_cons; [| apply Forall_nil].
    exists (VObj props), (e :: l). repeat split; auto. discriminate.
  - cbn [bind] in T. tail_only display T. quiet display shown_of.
    apply Forall_nil.
Qed.

Lemma exchange_no_result (m e : jstring) (d : value) (evs : list event)
    (x : exn) :
  exchange m e d evs (Thrown x) -> results evs = [].
Proof.
  intros H. unfold results.
  inversion H as [pre x' B | pre base reason B | pre base reason r B
                 | pre base r v' B]; subst.
  now quiet_base result_of.
Qed.

(** The end of a run whose rest [T] has been computed. *)
Ltac ended w T :=
  repeat match type of T with
         | context [w unit ?a ?c] => destruct (w unit a c)
         end;
  let T1 := fresh "T" in
  let T2 := fresh "T" in
  injection T as T1 T2; apply app_inv_head in T1;
  rewrite <- ?T1, <- ?T2 in *; clear T1 T2.

Lemma search_no_results (w : world) :
  let r := run w search [] in
  forall v,
    results (fst r) = [v] ->
    is_success v = false \/ prop v (js "data") = VArr [] ->
    shown (fst r) = []
    /\ documents (fst r) = []
    /\ snd r = Returned tt
    /\ exists before,
         notifications (fst r)
         = before ++ [(Information, js "No results found.")].
Proof.
  unfold search. prefix w.
  all: try (intros v H; discriminate H).
  at_request w. intros v.
  observe. quiet_exchange shown_of. quiet_exchange document_of.
  quiet_rest result_of.
  cbn [collect flat_map app shown_of result_of document_of notification_of].
  rewrite app_nil_r.
  destruct o as [v0 | x].
  2: { pose proof (exchange_no_result E) as V. unfold results in V.
       rewrite V. discriminate. }
  pose proof (exchange_results E) as V. unfold results in V. rewrite V.
  clear V. intros V. injection V as ->.
  rewrite app_assoc in T.
  match type of T with run _ _ ?q = _ => remember q as past eqn:Hp end.
  rewrite succeeded_pure in T. cbn [bind] in T.
  intros H.
  assert (T' : run w (perform (ShowInformationMessage (js "No results found.")))
                 past = (past ++ rest, final)).
  { destruct (is_success v) eqn:S.
    - destruct H as [H | H]; [discriminate |].
      destruct (is_success_object v S) as [props ->].
      rewrite !Get_object in T. cbn [bind] in T.
      rewrite H, Get_array_length in T. cbn [bind GreaterThanZero] in T.
      change (negb (Qle_bool (inject_Z (Z.of_nat (@List.length value []))) 0))
        with false in T.
      exact T.
    - exact T. }
  clear T. cbn in T'. ended w T'.
  cbn. repeat split; try reflexivity. eauto.
Qed.

(** ** The default settings *)

Lemma exchange_settings (m e : jstring) (d : value) (evs : list event)
    (o : outcome value) :
  exchange m e d evs o ->
  exists v,
    settings (js "apiUrl") evs = [v]
    /\ (ToBoolean v = false ->
        requests evs
        = [(js "http://localhost:3001" ++ e, request m d)]).
Proof.
  assert (B0 : forall pre ob, base_read pre ob ->
            exists v, settings (js "apiUrl") pre = [v]
                      /\ requests pre = []
                      /\ (ToBoolean v = false ->
                          ob = Returned (js "http://localhost:3001"))).
  { intros pre ob B.
    destruct B as [v s T | v s T | v reason T]; exists v;
      (split; [reflexivity |]); (split; [reflexivity |]);
      intros F; unfold base_of in T; rewrite F in T;
      cbn in T; first [discriminate T | injection T as <-; reflexivity]. }
  intros H. unfold settings, requests in *.
  destruct H as [pre x B | pre base reason B | pre base reason r B
                | pre base r v B];
    destruct (B0 _ _ B) as (v0 & S & Q & D); exists v0;
    rewrite ?collect_app, S, Q; (split; [reflexivity |]);
    intros F; specialize (D F); try discriminate;
    injection D as ->; reflexivity.
Qed.

Lemma apiRequest_default (w : world) (m e : jstring) (d : value)
    (past : trace) :
  ToBoolean (w _ past (GetConfiguration (js "devkb") (js "apiUrl"))) = false ->
  requests (fst (run w (apiRequest m e d) past))
  = requests past ++ [(js "http://localhost:3001" ++ e, request m d)].
Proof.
  intros F.
  unfold apiRequest, getApiUrl, getConfig. cbn. rewrite F. cbn.
  fold (request m d).
  match goal with
  | |- context [w (settled response) ?a ?c] =>
      destruct (w (settled response) a c) as [r | reason]
  end; cbn.
  - match goal with
    | |- context [w (settled value) ?a ?c] =>
        destruct (w (settled value) a c) as [v | reason]
    end; cbn; rewrite !flat_map_app; cbn;
      rewrite ?app_nil_r, <- ?app_assoc; reflexivity.
  - rewrite !flat_map_app; cbn. rewrite ?app_nil_r, <- ?app_assoc.
    reflexivity.
Qed.

Lemma indexProject_no_request (w : world) :
  requests (fst (run w indexProject [])) = [].
Proof.
  destruct (@only_run offline _ w indexProject indexProject_offline [])
    as (evs & o & R & F).
  rewrite R. cbn [fst app]. unfold requests.
  apply (@collect_only offline _ request_of evs); [side | exact F].
Qed.

Lemma command_default_base (w : world) (c : command) :
  let tr := fst (run w (handler c) []) in
  Forall (fun v => ToBoolean v = false) (settings (js "apiUrl") tr) ->
  Forall (fun r => exists endpoint,
            fst r = js "http://localhost:3001" ++ endpoint)
    (requests tr).
Proof.
  destruct c; cbn [handler];
    [ | | | intros _; rewrite indexProject_no_request; apply Forall_nil | ];
    [unfold askQuestion | unfold search | unfold addEntry | unfold showStats];
    prefix w.
  all: try (intros _; apply Forall_nil).
  all: at_request w.
  all: unfold settings, requests; rewrite !collect_app;
    quiet_rest (setting_of (js "apiUrl")); quiet_rest request_of;
    cbn [collect flat_map app setting_of request_of]; rewrite ?app_nil_r;
    destruct (exchange_settings E) as (v & S & Q);
    unfold settings, requests in S, Q; rewrite S;
    intros H; inversion H as [| ? ? Hv _]; subst;
    rewrite (Q Hv); apply Forall_cons; [| apply Forall_nil];
    eexists; reflexivity.
Qed.

(** One of the listed inputs is the one with a given prompt. *)
Ltac pick_input I :=
  cbn in I;
  repeat match type of I with
         | _ \/ _ => destruct I as [I | I]
         | False => contradiction I
         end;
  let I1 := fresh "I" in
  let I2 := fresh "I" in
  apply pair_equal_spec in I; destruct I as [I1 I2];
  first [ exfalso; vm_compute in I1; discriminate I1
        | clear I1;
          first [discriminate I2 | injection I2 as I2; subst | subst] ].

(** A request that was sent: its URL is the base read from the setting,
    then the endpoint. *)
Lemma exchange_base (m e : jstring) (d : value) (evs : list event)
    (o : outcome value) :
  exchange m e d evs o ->
  exists v,
    settings (js "apiUrl") evs = [v]
    /\ ((requests evs = [] /\ ~ plain_setting v)
        \/ exists base,
             requests evs = [(base ++ e, request m d)]
             /\ base_text v base).
Proof.
  assert (B0 : forall pre ob, base_read pre ob ->
            exists v, settings (js "apiUrl") pre = [v]
                      /\ requests pre = []
                      /\ match ob with
                         | Returned base => base_text v base
                         | Thrown _ => ~ plain_setting v
                         end).
  { intros pre ob B.
    destruct B as [v s T | v s T | v reason T]; exists v;
      (split; [reflexivity |]); (split; [reflexivity |]);
      unfold base_text; rewrite ?T; cbn; auto.
    unfold base_of in T.
    destruct v as [| | [|] | q | [| c s] | l | props]; cbn in T;
      try discriminate T; cbn; auto. }
  intros H. unfold settings, requests in *.
  destruct H as [pre x B | pre base reason B | pre base reason r B
                | pre base r v B];
    destruct (B0 _ _ B) as (v0 & S & Q & D); exists v0;
    rewrite ?collect_app, S, Q; (split; [reflexivity |]);
    [left; split; [reflexivity | exact D] | right; exists base ..];
    (split; [reflexivity | exact D]).
Qed.

(** The command stops at an empty title. *)
Lemma addEntry_title_required (w : world) :
  let tr := fst (run w addEntry []) in
  forall title,
    In (js "Enter entry title", title) (inputs tr) ->
    truthy title = false ->
    requests tr = [] /\ inputs tr = [(js "Enter entry title", title)].
Proof.
  unfold addEntry. prefix w.
  all: try (intros title I Tt; pick_input I; try discriminate Tt;
            split; reflexivity).
  all: at_request w; observe; quiet_exchange input_of; quiet_rest input_of;
    intros title I Tt; pick_input I; discriminate Tt.
Qed.

(** The command goes on with the typed content, or else with the
    selection, and sends it. *)
Lemma addEntry_content_sent (w : world) :
  let tr := fst (run w addEntry []) in
  forall typed content,
    In (js "Enter entry content", typed) (inputs tr) ->
    (if truthy typed then typed else hd_error (selections tr))
    = Some content ->
    content <> [] ->
    Forall plain_setting (settings (js "apiUrl") tr) ->
    exists r,
      requests tr = [r]
      /\ sent r (js "content") = VStr content.
Proof.
  unfold addEntry. prefix w.
  all: try (intros typed content I C N _; pick_input I; cbn in C;
            first [discriminate C | injection C as <-; now contradiction N]).
  all: at_request w; observe; unfold settings;
    rewrite ?collect_app;
    quiet_exchange input_of; quiet_rest input_of;
    quiet_exchange selection_of; quiet_rest selection_of;
    quiet_rest request_of; quiet_rest (setting_of (js "apiUrl"));
    intros typed content I C N P; pick_input I; cbn in C;
    try discriminate C; injection C as <-;
    cbn [collect flat_map app setting_of request_of] in *;
    rewrite ?app_nil_r in *;
    destruct (exchange_base E) as (v & S & [(_ & K) | (base & Q & _)]);
    unfold settings, requests in *;
    [ exfalso; rewrite S in P; inversion P; now apply K
    | rewrite Q; eexists; split; reflexivity ].
Qed.

(** With no content and no selection, nothing is sent. *)
Lemma addEntry_content_missing (w : world) :
  let tr := fst (run w addEntry []) in
  forall typed,
    In (js "Enter entry content", typed) (inputs tr) ->
    truthy typed = false ->
    truthy (hd_error (selections tr)) = false ->
    requests tr = [].
Proof.
  unfold addEntry. prefix w.
  all: try (intros typed I Tt Ts; reflexivity).
  all: at_request w; observe; quiet_exchange input_of; quiet_rest input_of;
    quiet_exchange selection_of; quiet_rest selection_of;
    intros typed I Tt Ts; cbn in Ts; pick_input I;
    try discriminate Tt; discriminate Ts.
Qed.

(** * What the specification says of the client *)

(** C1, as the code has it.  The tags of every request [addEntry] sends
    are the comma-separated pieces of what was typed in the tags box, each
    trimmed, so each tag equals its trimmed form; letter case is kept as
    typed.  Nothing typed, or the empty string, gives no tag. *)
Theorem addEntry_tags_trimmed (w : world) :
  let tr := fst (run w addEntry []) in
  Forall (fun r =>
    exists typed tags,
      In (js "Enter tags (comma-separated)", typed) (inputs tr)
      /\ tags = match typed with
                | Some (c :: s) => map trim (split comma (c :: s))
                | _ => []
                end
      /\ sent r (js "tags") = VArr (map VStr tags)
      /\ Forall (fun t => trim t = t) tags)
    (requests tr).
Proof.
  intros tr. eapply Forall_impl; [| exact (addEntry_requests w)].
  intros r (base & ty & ti & ci & tg & past & _ & _ & I & _ & _ & _ & ->).
  exists tg, (tags_of tg). fold tr in I. rewrite I.
  split; [simpl; auto |].
  split; [now destruct tg as [[| c s] |] |].
  split; [reflexivity |].
  unfold tags_of. destruct (truthy tg); [| constructor].
  apply Forall_map, Forall_forall. intros t _. apply trim_idempotent.
Qed.

(** C1, as the claim states it, fails: the tag typed "Auth" is sent as
    "Auth", which is not its lower-case form. *)
Lemma addEntry_tags_keep_case :
  let tr := fst (run (scripted adds_login) addEntry []) in
  exists r tags,
    requests tr = [r]
    /\ sent r (js "tags") = VArr (map VStr tags)
    /\ tags = [js "Auth"; js "security"]
    /\ ~ Forall (fun t => toLowerCase t = t) tags.
Proof.
  eexists. exists [js "Auth"; js "security"].
  split; [vm_compute; reflexivity |].
  split; [vm_compute; reflexivity |].
  split; [reflexivity |].
  intros H. inversion H as [| t l Ht _]. vm_compute in Ht. discriminate Ht.
Qed.

(** C2.  Every request [addEntry] sends is a [POST] to [/api/entries]
    whose body is the object [{type, title, content, tags, source}], in
    this order, with strings for [type], [title] and [content], an array
    of strings for [tags], and ["vscode"] for [source]. *)
Theorem addEntry_payload_shape (w : world) :
  let tr := fst (run w addEntry []) in
  Forall (fun r =>
    exists base type title content tags,
      r = (base ++ js "/api/entries",
           {| method := js "POST";
              headers := [(js "Content-Type", js "application/json")];
              body := Some (JSON_stringify
                (VObj [(js "type", VStr type);
                       (js "title", VStr title);
                       (js "content", VStr content);
                       (js "tags", VArr (map VStr tags));
                       (js "source", VStr (js "vscode"))])) |}))
    (requests tr).
Proof.
  intros tr. eapply Forall_impl; [| exact (addEntry_requests w)].
  intros r (base & ty & ti & ci & tg & past & _ & _ & _ & _ & _ & _ & ->).
  now exists base, ty, ti, (or_default (or_else ci (hd_error (selections tr))) []),
    (tags_of tg).
Qed.

(** C3.  When [showQuickPick] keeps its contract, the [type] of every
    request [addEntry] sends is one of the six entry types: the quick-pick
    offers exactly these six, a request is sent only after one of them was
    picked, and nothing is sent when none was. *)
Theorem addEntry_type_enumerated (w : world) (H : picks_offered w) :
  let tr := fst (run w addEntry []) in
  Forall (fun p => fst p = entry_types) (picks tr)
  /\ Forall (fun r =>
       exists type,
         picks tr = [(entry_types, Some type)]
         /\ sent r (js "type") = VStr type
         /\ In type
              [js "code"; js "documentation"; js "decision";
               js "conversation"; js "architecture"; js "process"])
       (requests tr)
  /\ (In (entry_types, None) (picks tr) -> requests tr = []).
Proof.
  intros tr.
  assert (R : Forall (fun r =>
       exists type,
         picks tr = [(entry_types, Some type)]
         /\ sent r (js "type") = VStr type
         /\ In type entry_types) (requests tr)).
  { eapply Forall_impl; [| exact (addEntry_requests w)].
    intros r (base & ty & ti & ci & tg & past & P & K & _ & _ & _ & _ & ->).
    exists ty. split; [exact K |]. split; [reflexivity |].
    specialize (H past entry_types (js "Select entry type")).
    rewrite P in H. exact H. }
  split; [exact (addEntry_picks w) |]. split; [exact R |].
  intros N. destruct (requests tr) as [| r rs]; [reflexivity |].
  inversion R as [| ? ? (type & K & _) _]; subst.
  rewrite K in N. destruct N as [N | []]. discriminate N.
Qed.

Lemma addEntry_type_enumerated_witness :
  picks_offered (scripted adds_login)
  /\ let tr := fst (run (scripted adds_login) addEntry []) in
     Forall (fun p => fst p = entry_types) (picks tr)
     /\ Forall (fun r =>
          exists type,
            picks tr = [(entry_types, Some type)]
            /\ sent r (js "type") = VStr type
            /\ In type
                 [js "code"; js "documentation"; js "decision";
                  js "conversation"; js "architecture"; js "process"])
          (requests tr)
     /\ (In (entry_types, None) (picks tr) -> requests tr = []).
Proof.
  split.
  - apply scripted_picks_offered.
  - apply (addEntry_type_enumerated (scripted_picks_offered adds_login)).
Defined.

(** C4.  Every request [addEntry] sends has a non-empty [title], the one
    typed, and a non-empty [content]: the typed content, or else the text
    selected in the editor.  The command stops at an empty title, and, once
    the content box is closed, with no request when the box and the
    selection are both empty; with a content typed, or else, the box left
    empty, with a non-empty selection, it goes on and sends that content,
    unless the [apiUrl] setting is a number, an array or an object. *)
Theorem addEntry_title_content_nonempty (w : world) :
  let tr := fst (run w addEntry []) in
  Forall (fun r =>
    exists title content typed tags,
      inputs tr = [(js "Enter entry title", Some title);
                   (js "Enter entry content", typed);
                   (js "Enter tags (comma-separated)", tags)]
      /\ sent r (js "title") = VStr title
      /\ title <> []
      /\ sent r (js "content") = VStr content
      /\ content <> []
      /\ Some content
         = (if truthy typed then typed else hd_error (selections tr)))
    (requests tr)
  /\ (forall title,
        In (js "Enter entry title", title) (inputs tr) ->
        truthy title = false ->
        requests tr = [] /\ inputs tr = [(js "Enter entry title", title)])
  /\ (forall typed content,
        In (js "Enter entry content", typed) (inputs tr) ->
        (if truthy typed then typed else hd_error (selections tr))
        = Some content ->
        content <> [] ->
        Forall plain_setting (settings (js "apiUrl") tr) ->
        exists r,
          requests tr = [r]
          /\ sent r (js "content") = VStr content)
  /\ (forall typed,
        In (js "Enter entry content", typed) (inputs tr) ->
        truthy typed = false ->
        truthy (hd_error (selections tr)) = false ->
        requests tr = []).
Proof.
  intros tr. split; [| split; [| split]].
  - eapply Forall_impl; [| exact (addEntry_requests w)].
    intros r (base & ty & ti & ci & tg & past & _ & _ & I & _ & T & C & ->).
    fold tr in I, C.
    exists ti, (or_default (or_else ci (hd_error (selections tr))) []), ci, tg.
    repeat (split; [assumption || reflexivity |]).
    unfold or_else in *.
    destruct (truthy ci) eqn:Tc.
    + destruct ci as [[| c s] |]; try discriminate. reflexivity.
    + destruct (hd_error (selections tr)) as [[| c s] |]; cbn in *; congruence.
  - exact (addEntry_title_required w).
  - exact (addEntry_content_sent w).
  - exact (addEntry_content_missing w).
Qed.

Lemma addEntry_title_content_nonempty_witness :
  let tr := fst (run (scripted selects_text) addEntry []) in
  In (js "Enter entry content", None) (inputs tr)
  /\ hd_error (selections tr) = Some (js "session.save(cookie)")
  /\ exists r,
       requests tr = [r]
       /\ sent r (js "content") = VStr (js "session.save(cookie)").
Proof.
  split; [vm_compute; auto |].
  split; [vm_compute; reflexivity |].
  destruct (addEntry_title_content_nonempty (scripted selects_text))
    as (_ & _ & S & _).
  apply (S None (js "session.save(cookie)")).
  - vm_compute. auto.
  - vm_compute. reflexivity.
  - discriminate.
  - vm_compute. repeat constructor.
Defined.

(** C5.  When the [devkb.apiUrl] setting is unset or falsy, [getApiUrl]
    returns [http://localhost:3001], the URL [apiRequest] fetches is this
    base followed by the endpoint as given, and so is the URL of every
    request of every command. *)
Theorem default_api_url (w : world) :
  (forall past,
      ToBoolean (w _ past (GetConfiguration (js "devkb") (js "apiUrl")))
      = false ->
      snd (run w getApiUrl past)
      = Returned (VStr (js "http://localhost:3001")))
  /\ (forall method endpoint data past,
        ToBoolean (w _ past (GetConfiguration (js "devkb") (js "apiUrl")))
        = false ->
        requests (fst (run w (apiRequest method endpoint data) past))
        = requests past
          ++ [(js "http://localhost:3001" ++ endpoint,
               {| method := method;
                  headers := [(js "Content-Type", js "application/json")];
                  body := if ToBoolean data
                          then Some (JSON_stringify data) else None |})])
  /\ (forall c : command,
        let tr := fst (run w (handler c) []) in
        Forall (fun v => ToBoolean v = false) (settings (js "apiUrl") tr) ->
        Forall (fun r => exists endpoint,
                  fst r = js "http://localhost:3001" ++ endpoint)
          (requests tr)).
Proof.
  split; [| split].
  - intros past F. unfold getApiUrl, getConfig. cbn. now rewrite F.
  - intros method endpoint data past. apply apiRequest_default.
  - intros c. apply command_default_base.
Qed.

Lemma default_api_url_witness :
  let w := scripted adds_login in
  ToBoolean (w _ [] (GetConfiguration (js "devkb") (js "apiUrl"))) = false
  /\ requests (fst (run w (apiRequest (js "GET") (js "/api/stats")
                             VUndefined) []))
     = [(js "http://localhost:3001/api/stats",
         {| method := js "GET";
            headers := [(js "Content-Type", js "application/json")];
            body := None |})].
Proof.
  split; [reflexivity |].
  apply (proj1 (proj2 (default_api_url (scripted adds_login)))
           (js "GET") (js "/api/stats") VUndefined []).
  reflexivity.
Defined.

(** C6.  When the [devkb.dataDir] setting is unset or falsy, [getDataDir]
    returns [.devkb], and the index command, with a workspace open, looks
    for the directory [.devkb] joined under the path of the first
    workspace folder, and creates it, recursively, when it is missing. *)
Theorem default_data_dir (w : world) :
  (forall past,
      ToBoolean (w _ past (GetConfiguration (js "devkb") (js "dataDir")))
      = false ->
      snd (run w getDataDir past) = Returned (VStr (js ".devkb")))
  /\ (forall folder others,
        w _ [] WorkspaceFolders = Some (folder :: others) ->
        ToBoolean
          (w _ [Event WorkspaceFolders (Some (folder :: others))]
             (GetConfiguration (js "devkb") (js "dataDir")))
        = false ->
        let tr := fst (run w indexProject []) in
        let dataDir := path_join (fsPath folder) (js ".devkb") in
        exists present,
          checked tr = [(dataDir, present)]
          /\ created tr = if present then [] else [(dataDir, true)]).
Proof.
  split.
  - intros past F. unfold getDataDir, getConfig. cbn. now rewrite F.
  - intros folder others W F.
    unfold indexProject, getDataDir, getConfig. cbn.
    rewrite W. cbn. rewrite F. cbn.
    match goal with
    | |- context [w bool ?a ?c] => destruct (w bool a c)
    end; cbn.
    + exists true. prefix w. split; reflexivity.
    + exists false. prefix w; split; reflexivity.
Qed.

Lemma default_data_dir_witness :
  let w := scripted adds_login in
  let folder := {| fsPath := js "/home/dev/project" |} in
  w _ [] WorkspaceFolders = Some [folder]
  /\ ToBoolean
       (w _ [Event WorkspaceFolders (Some [folder])]
          (GetConfiguration (js "devkb") (js "dataDir")))
     = false
  /\ exists present,
       checked (fst (run w indexProject []))
       = [(path_join (js "/home/dev/project") (js ".devkb"), present)]
       /\ created (fst (run w indexProject []))
          = if present then []
            else [(path_join (js "/home/dev/project") (js ".devkb"), true)].
Proof.
  split; [reflexivity |]. split; [reflexivity |].
  apply (proj2 (default_data_dir (scripted adds_login))
           {| fsPath := js "/home/dev/project" |} []); reflexivity.
Defined.

(** C7.  The ask command sends [POST /api/ask] only when the input box
    returned a non-empty string, and the body of the request is the
    object whose [question] field is that string. *)
Theorem askQuestion_question_nonempty (w : world) :
  let tr := fst (run w askQuestion []) in
  Forall (fun r =>
    exists base q,
      q <> []
      /\ inputs tr = [(js "Ask a question about your codebase", Some q)]
      /\ r = (base ++ js "/api/ask",
              {| method := js "POST";
                 headers := [(js "Content-Type", js "application/json")];
                 body := Some (JSON_stringify
                                 (VObj [(js "question", VStr q)])) |}))
    (requests tr).
Proof.
  unfold askQuestion. cbn.
  destruct (w _ [] _) as [[| c q] |]; cbn; try constructor.
  split_run w. cbn [fst].
  unfold inputs, requests. rewrite !collect_app.
  quiet_exchange input_of. quiet_rest input_of. quiet_rest request_of.
  cbn. rewrite app_nil_r.
  destruct (exchange_requests E) as [Q | [base Q]]; unfold requests in Q;
    rewrite Q; constructor; auto.
  exists base, (c :: q). repeat split. discriminate.
Qed.

(** C8.  The search command sends [GET /api/search] only when the input
    box returned a non-empty string; the [q] parameter of the request is
    [encodeURIComponent] of that string, and is not empty. *)
Theorem search_query_nonempty (w : world) :
  let tr := fst (run w search []) in
  Forall (fun r =>
    exists base q enc,
      q <> []
      /\ inputs tr = [(js "Search the knowledge base", Some q)]
      /\ encodeURIComponent q = Some enc
      /\ enc <> []
      /\ r = (base ++ js "/api/search?q=" ++ enc,
              {| method := js "GET";
                 headers := [(js "Content-Type", js "application/json")];
                 body := None |}))
    (requests tr).
Proof.
  unfold search. cbn.
  destruct (w _ [] _) as [[| c q] |]; cbn; try constructor.
  unfold uri_component.
  destruct (encodeURIComponent (c :: q)) as [enc |] eqn:U; cbn;
    try constructor.
  split_run w. cbn [fst].
  unfold inputs, requests. rewrite !collect_app.
  quiet_exchange input_of. quiet_rest input_of. quiet_rest request_of.
  cbn. rewrite app_nil_r.
  destruct (exchange_requests E) as [Q | [base Q]]; unfold requests in Q;
    rewrite Q; constructor; auto.
  exists base, (c :: q), enc. repeat split; try discriminate; auto.
  eapply encodeURIComponent_nonempty; eauto. discriminate.
Qed.

(** C9, as the code has it.  When [fetch] or [response.json()] rejects,
    [apiRequest] shows the error notification and returns [null], and the
    command that called it shows the notification of its failure branch (a
    warning for ask and stats, an information message for search, an
    error message for addEntry), opens no document and ends normally. *)
Theorem request_failure_handled (w : world) :
  (forall (method endpoint : jstring) (data : value) (past : trace),
      let r := run w (apiRequest method endpoint data) past in
      rejections (fst r) <> rejections past ->
      snd r = Returned VNull
      /\ exists before reason,
           fst r = before
                   ++ [Event (ShowErrorMessage
                                (js "DevKB API error: " ++ reason)) tt])
  /\ (forall c : command,
        let r := run w (handler c) [] in
        rejections (fst r) <> [] ->
        exists reason notice,
          rejections (fst r) = [reason]
          /\ results (fst r) = [VNull]
          /\ failure_notice c = Some notice
          /\ notifications (fst r)
             = [(Error, js "DevKB API error: " ++ reason); notice]
          /\ documents (fst r) = []
          /\ snd r = Returned tt).
Proof.
  split.
  - intros method endpoint data past. apply apiRequest_failure.
  - intros c. apply command_failure.
Qed.

Lemma request_failure_handled_witness :
  let r := run (scripted unreachable) (handler devkb_ask) [] in
  rejections (fst r) <> []
  /\ exists reason notice,
       rejections (fst r) = [reason]
       /\ results (fst r) = [VNull]
       /\ failure_notice devkb_ask = Some notice
       /\ notifications (fst r)
          = [(Error, js "DevKB API error: " ++ reason); notice]
       /\ documents (fst r) = []
       /\ snd r = Returned tt.
Proof.
  split.
  - vm_compute. discriminate.
  - apply (proj2 (request_failure_handled (scripted unreachable)) devkb_ask).
    vm_compute. discriminate.
Defined.

(** C9, as the claim states it, fails for addEntry: with the server down,
    the notification of its failure branch is an error message; the run
    shows no warning and no information message. *)
Lemma addEntry_failure_is_an_error_message :
  let r := run (scripted unreachable) (handler devkb_addEntry) [] in
  rejections (fst r) = [js "TypeError: fetch failed"]
  /\ notifications (fst r)
     = [(Error, js "DevKB API error: TypeError: fetch failed");
        (Error, js "Failed to create entry")]
  /\ ~ Exists (fun n => fst n = Warning \/ fst n = Information)
        (notifications (fst r)).
Proof.
  split; [vm_compute; reflexivity |].
  split; [vm_compute; reflexivity |].
  intros H. vm_compute in H.
  repeat match goal with
         | H : Exists _ _ |- _ => inversion H; clear H; subst
         | H : _ \/ _ |- _ => destruct H
         end; discriminate.
Qed.

(** C10.  In the search command a failed request leaves [null] as result;
    a result that is not a success (among them [null]) and a success whose
    data is the empty array end alike, with the notification "No results
    found." and no quick-pick.  A quick-pick is shown only for a success
    whose data is a non-empty array, and each item displays its entry: the
    title, the type, and the first 100 code units of the content. *)
Theorem search_results_shown (w : world) :
  let r := run w search [] in
  let tr := fst r in
  (rejections tr <> [] -> results tr = [VNull])
  /\ (forall v,
        results tr = [v] ->
        is_success v = false \/ prop v (js "data") = VArr [] ->
        shown tr = []
        /\ documents tr = []
        /\ snd r = Returned tt
        /\ exists before,
             notifications tr
             = before ++ [(Information, js "No results found.")])
  /\ Forall (fun items =>
       exists v entries,
         results tr = [v]
         /\ is_success v = true
         /\ prop v (js "data") = VArr entries
         /\ entries <> []
         /\ Forall2 displays items entries)
       (shown tr).
Proof.
  intros r tr. split; [| split].
  - intros H.
    destruct (command_failure w devkb_search H) as (reason & notice & _ & V & _).
    exact V.
  - apply search_no_results.
  - apply search_shown.
Qed.

Lemma search_results_shown_witness :
  let r := run (scripted no_result) search [] in
  let v := VObj [(js "success", VBool true); (js "data", VArr [])] in
  results (fst r) = [v]
  /\ (is_success v = false \/ prop v (js "data") = VArr [])
  /\ shown (fst r) = []
  /\ documents (fst r) = []
  /\ snd r = Returned tt
  /\ exists before,
       notifications (fst r)
       = before ++ [(Information, js "No results found.")].
Proof.
  split; [vm_compute; reflexivity |].
  split; [right; vm_compute; reflexivity |].
  apply (proj1 (proj2 (search_results_shown (scripted no_result)))
           (VObj [(js "success", VBool true); (js "data", VArr [])])).
  - vm_compute. reflexivity.
  - right. vm_compute. reflexivity.
Defined.


(** * More of what the extension does *)

Lemma base_failed_setting (pre : list event) (x : exn) :
  base_read pre (Thrown x) ->
  exists v reason,
    x = HostError reason
    /\ settings (js "apiUrl") pre = [v]
    /\ requests pre = []
    /\ notifications pre = []
    /\ match v with
       | VNum _ | VArr _ | VObj _ => True
       | _ => False
       end.
Proof.
  intros B. inversion B as [| | v reason T]; subst.
  exists v, reason. repeat split.
  unfold base_of in T.
  destruct v as [| | [|] | q | [| c s] | l | props]; cbn in T;
    try discriminate T; auto.
Qed.

(** X1.  [apiRequest] never lets a failure of [fetch] or of
    [response.json()] escape: it returns the parsed answer, or [null]
    after a failure, having sent exactly one request.  The only exception
    it raises is the host's failure to convert an [apiUrl] setting that is
    a number, an array or an object, before any request or notification. *)
Theorem apiRequest_outcome (w : world) (method endpoint : jstring)
    (data : value) (past : trace) :
  let r := run w (apiRequest method endpoint data) past in
  match snd r with
  | Returned v =>
      results (fst r) = results past ++ [v]
      /\ exists base,
           requests (fst r)
           = requests past
             ++ [(base ++ endpoint,
                  {| method := method;
                     headers := [(js "Content-Type", js "application/json")];
                     body := if ToBoolean data
                             then Some (JSON_stringify data) else None |})]
  | Thrown x =>
      requests (fst r) = requests past
      /\ notifications (fst r) = notifications past
      /\ exists v reason,
           x = HostError reason
           /\ settings (js "apiUrl") (fst r)
              = settings (js "apiUrl") past ++ [v]
           /\ match v with
              | VNum _ | VArr _ | VObj _ => True
              | _ => False
              end
  end.
Proof.
  destruct (apiRequest_run w method endpoint data past) as (evs & o & R & E).
  rewrite R. cbn [fst snd].
  unfold results, requests, notifications, settings. rewrite !collect_app.
  destruct E as [pre x B | pre base reason B | pre base reason r B
                | pre base r v B].
  - destruct (base_failed_setting B) as (v & reason & -> & S & Q & N & K).
    unfold settings, requests, notifications in S, Q, N.
    rewrite S, Q, N, !app_nil_r. repeat split. now exists v, reason.
  - rewrite !collect_app. quiet_base result_of. quiet_base request_of.
    split; [reflexivity |]. now exists base.
  - rewrite !collect_app. quiet_base result_of. quiet_base request_of.
    split; [reflexivity |]. now exists base.
  - rewrite !collect_app. quiet_base result_of. quiet_base request_of.
    split; [reflexivity |]. now exists base.
Qed.

Lemma apiRequest_outcome_witness :
  let r := run broken_setting
             (apiRequest (js "GET") (js "/api/stats") VUndefined) [] in
  snd r
  = Thrown (HostError
              (js "TypeError: Cannot convert object to primitive value"))
  /\ requests (fst r) = []
  /\ notifications (fst r) = [].
Proof.
  pose proof (apiRequest_outcome broken_setting (js "GET") (js "/api/stats")
                VUndefined []) as H.
  cbv zeta in H.
  split; [vm_compute; reflexivity |].
  replace (snd (run broken_setting
                  (apiRequest (js "GET") (js "/api/stats") VUndefined) []))
    with (@Thrown value
            (HostError
               (js "TypeError: Cannot convert object to primitive value")))
    in H by (vm_compute; reflexivity).
  destruct H as (Q & N & _). split; [exact Q | exact N].
Defined.

(** X2.  A non-empty string in the [apiUrl] setting is used as it is:
    the URL fetched is the setting followed by the endpoint, nothing
    added and nothing removed between them. *)
Theorem apiRequest_configured_base (w : world) (method endpoint : jstring)
    (data : value) (past : trace) (base : jstring) :
  w _ past (GetConfiguration (js "devkb") (js "apiUrl")) = VStr base ->
  base <> [] ->
  map fst (requests (fst (run w (apiRequest method endpoint data) past)))
  = map fst (requests past) ++ [base ++ endpoint].
Proof.
  intros V N.
  unfold apiRequest, getApiUrl, getConfig. cbn. rewrite V.
  destruct base as [| c s]; [contradiction |]. cbn.
  repeat (match goal with
          | |- context [w ?X ?a ?k] => destruct (w X a k)
          end; cbn);
    rewrite !flat_map_app, ?map_app; cbn;
    rewrite ?app_nil_r, <- ?app_assoc; reflexivity.
Qed.

Lemma apiRequest_configured_base_witness :
  let w := scripted configured in
  w _ [] (GetConfiguration (js "devkb") (js "apiUrl"))
  = VStr (js "http://kb.local:8080/")
  /\ map fst (requests (fst (run w (apiRequest (js "GET") (js "/api/stats")
                                      VUndefined) [])))
     = [js "http://kb.local:8080//api/stats"].
Proof.
  split; [reflexivity |].
  apply (@apiRequest_configured_base (scripted configured) (js "GET")
           (js "/api/stats") VUndefined [] (js "http://kb.local:8080/")).
  - reflexivity.
  - vm_compute. discriminate.
Defined.


Lemma exchange_notifications (m e : jstring) (d : value) (evs : list event)
    (o : outcome value) :
  exchange m e d evs o ->
  notifications evs = []
  \/ exists reason,
       notifications evs = [(Error, js "DevKB API error: " ++ reason)].
Proof.
  intros H. unfold notifications.
  destruct H as [pre x B | pre base reason B | pre base reason r B
                | pre base r v B];
    rewrite ?collect_app; quiet_base notification_of; cbn; eauto.
Qed.

Lemma indexProject_no_result (w : world) :
  results (fst (run w indexProject [])) = [].
Proof.
  destruct (@only_run offline _ w indexProject indexProject_offline [])
    as (evs & o & R & F).
  rewrite R. cbn [fst app]. unfold results.
  apply (@collect_only offline _ result_of evs); [side | exact F].
Qed.

Ltac observe_more :=
  unfold boxes, choices, globs, revealed, opened, workspaces, checked,
    created in *;
  rewrite ?collect_app.

(** The run of a command up to the result [v] of its request: the rest of
    the command is left in [T], to be run from [past]. *)
Ltac with_result w v :=
  at_request w;
  let o := lazymatch goal with E : exchange _ _ _ _ ?o |- _ => o end in
  let V := fresh "V" in
  intros V; revert V; observe; observe_more; quiet_rest result_of;
  cbn [collect flat_map app result_of]; rewrite ?app_nil_r;
  destruct o as [? | ?];
  [ match goal with
    | E : exchange _ _ _ _ (Returned ?v0) |- _ =>
        let K := fresh "K" in
        pose proof (exchange_results E) as K; unfold results in K;
        rewrite K; clear K; intros V; injection V as V; subst v0
    end
  | match goal with
    | E : exchange _ _ _ _ (Thrown _) |- _ =>
        let K := fresh "K" in
        pose proof (exchange_no_result E) as K; unfold results in K;
        rewrite K; intros V; discriminate V
    end ].

(** X4.  A result that is no success (the server refused, answered [null]
    or anything that is no object with a truthy [success]) ends every
    command like a failed request: its failure notification is the last
    one shown, after at most the API error, no quick-pick and no document
    appear, and the command ends normally. *)
Theorem refusal_handled (w : world) (c : command) (v : value) :
  let r := run w (handler c) [] in
  results (fst r) = [v] ->
  is_success v = false ->
  exists notice before,
    failure_notice c = Some notice
    /\ notifications (fst r) = before ++ [notice]
    /\ (before = []
        \/ exists reason,
             before = [(Error, js "DevKB API error: " ++ reason)])
    /\ shown (fst r) = []
    /\ documents (fst r) = []
    /\ snd r = Returned tt.
Proof.
  destruct c; cbn [handler failure_notice];
    [ | | | rewrite indexProject_no_result; discriminate | ];
    [unfold askQuestion | unfold search | unfold addEntry | unfold showStats];
    prefix w.
  all: try (intros V; discriminate V).
  all: with_result w v.
  all: intros S; rewrite app_assoc in T;
    match type of T with run _ _ ?q = _ => remember q as past eqn:Hp end;
    rewrite succeeded_pure, S in T; cbn in T; ended w T;
    quiet_exchange shown_of; quiet_exchange document_of;
    eexists; exists (notifications evs); unfold notifications;
    cbn; rewrite ?app_nil_r;
    repeat split; try reflexivity;
    apply (exchange_notifications E).
Qed.

Lemma refusal_handled_witness :
  let r := run (scripted refused) (handler devkb_stats) [] in
  let v := VObj [(js "success", VBool false);
                 (js "error", VStr (js "q is required"))] in
  results (fst r) = [v]
  /\ is_success v = false
  /\ exists notice before,
       failure_notice devkb_stats = Some notice
       /\ notifications (fst r) = before ++ [notice]
       /\ (before = []
           \/ exists reason,
                before = [(Error, js "DevKB API error: " ++ reason)])
       /\ shown (fst r) = []
       /\ documents (fst r) = []
       /\ snd r = Returned tt.
Proof.
  split; [vm_compute; reflexivity |].
  split; [vm_compute; reflexivity |].
  apply (@refusal_handled (scripted refused) devkb_stats
           (VObj [(js "success", VBool false);
                  (js "error", VStr (js "q is required"))]));
    vm_compute; reflexivity.
Defined.

Lemma exchange_success_quiet (m e : jstring) (d : value) (evs : list event)
    (v : value) :
  exchange m e d evs (Returned v) ->
  is_success v = true ->
  notifications evs = [] /\ rejections evs = [].
Proof.
  intros H S. unfold notifications, rejections.
  inversion H as [pre x B | pre base reason B | pre base reason r B
                 | pre base r v' B]; subst; try discriminate S;
    rewrite ?collect_app; quiet_base notification_of;
    quiet_base rejected_of; split; reflexivity.
Qed.

(** The end of a run whose rest [T] threw at once. *)
Ltac thrown T :=
  let T1 := fresh "T" in
  let T2 := fresh "T" in
  injection T as T1 T2;
  match type of T1 with
  | ?q = ?q ++ ?rest =>
      assert (rest = [])
        by (apply (app_inv_head q); rewrite app_nil_r; symmetry; exact T1);
      subst rest; clear T1
  end;
  rewrite <- ?T2 in *; clear T2.

(** X5.  A success without [data] makes the ask, search and stats commands
    throw a [TypeError] that nothing catches: no notification, no
    quick-pick and no document tell the user. *)
Theorem success_without_data (w : world) (c : command) (v : value) :
  let r := run w (handler c) [] in
  c <> devkb_addEntry ->
  results (fst r) = [v] ->
  is_success v = true ->
  prop v (js "data") = VUndefined \/ prop v (js "data") = VNull ->
  snd r = Thrown TypeError
  /\ notifications (fst r) = []
  /\ shown (fst r) = []
  /\ documents (fst r) = [].
Proof.
  destruct c; cbn [handler];
    [ | | intros C; now contradiction C
    | intros _; rewrite indexProject_no_result; discriminate | ];
    intros _;
    [unfold askQuestion | unfold search | unfold showStats];
    prefix w.
  all: try (intros V; discriminate V).
  all: with_result w v.
  all: intros S D; rewrite app_assoc in T;
    match type of T with run _ _ ?q = _ => remember q as past eqn:Hp end;
    rewrite succeeded_pure, S in T; cbn [bind] in T;
    destruct (is_success_object v S) as [props ->];
    rewrite !Get_object in T; cbn [bind] in T;
    destruct (exchange_success_quiet E S) as [N _];
    unfold notifications in N;
    destruct D as [D | D]; rewrite D in T; cbn in T; thrown T;
    quiet_exchange shown_of; quiet_exchange document_of; rewrite ?N;
    cbn; repeat split; reflexivity.
Qed.

Lemma success_without_data_witness :
  let r := run (scripted adds_login) (handler devkb_ask) [] in
  let v := VObj [(js "success", VBool true)] in
  devkb_ask <> devkb_addEntry
  /\ results (fst r) = [v]
  /\ snd r = Thrown TypeError
  /\ notifications (fst r) = []
  /\ shown (fst r) = []
  /\ documents (fst r) = [].
Proof.
  split; [discriminate |].
  split; [vm_compute; reflexivity |].
  apply (@success_without_data (scripted adds_login) devkb_ask
           (VObj [(js "success", VBool true)]));
    [discriminate | vm_compute; reflexivity | vm_compute; reflexivity
    | left; vm_compute; reflexivity].
Defined.

Lemma Get_present (d : value) (name : jstring) :
  jstring_eqb name (js "length") = false ->
  match d with VUndefined | VNull => False | _ => True end ->
  Get d name = Ret (prop d name).
Proof.
  intros L P. destruct d; try contradiction; cbn; rewrite ?L; reflexivity.
Qed.

(** The end of a run whose rest [T] has been computed, of any length. *)
Ltac finished w T :=
  repeat match type of T with
         | context [w unit ?a ?c] => destruct (w unit a c)
         end;
  let T1 := fresh "T" in
  let T2 := fresh "T" in
  injection T as T1 T2; rewrite <- ?app_assoc in T1;
  apply app_inv_head in T1;
  rewrite <- ?T1, <- ?T2 in *; clear T1 T2.

(** X6.  On a success with data, the ask command opens one markdown
    document, the typed question under "# Question: " and the answer under
    "## Answer", brings it to the front and shows no notification.  An
    answer that is missing is written "undefined". *)
Theorem ask_answer_document (w : world) (v : value) (q a : jstring) :
  let r := run w askQuestion [] in
  results (fst r) = [v] ->
  is_success v = true ->
  match prop v (js "data") with VUndefined | VNull => False | _ => True end ->
  In (js "Ask a question about your codebase", Some q) (inputs (fst r)) ->
  ToString (prop (prop v (js "data")) (js "answer")) = Ret a ->
  documents (fst r)
  = [{| content := js "# Question: " ++ q ++ nl ++ nl
                   ++ js "## Answer" ++ nl ++ a;
        language := js "markdown" |}]
  /\ revealed (fst r) = map snd (opened (fst r))
  /\ notifications (fst r) = []
  /\ snd r = Returned tt.
Proof.
  unfold askQuestion. prefix w.
  all: try (intros V; discriminate V).
  with_result w v. quiet_exchange input_of. quiet_rest input_of.
  intros S D I A. rewrite app_assoc in T.
  match type of T with run _ _ ?p = _ => remember p as past eqn:Hp end.
  rewrite succeeded_pure, S in T. cbn [bind] in T.
  destruct (is_success_object v S) as [props ->].
  rewrite !Get_object in T. cbn [bind] in T.
  rewrite (Get_present _ (js "answer") eq_refl D) in T. cbn [bind] in T.
  cbn [optional ToString bind] in T. rewrite A in T. cbn in T.
  finished w T.
  destruct (exchange_success_quiet E S) as [N _]. unfold notifications in N.
  quiet_exchange document_of. quiet_exchange revealed_of.
  quiet_exchange opened_of.
  rewrite N.
  cbn in I. destruct I as [I | []]. injection I as <-.
  cbn. repeat split; reflexivity.
Qed.

Lemma ask_answer_document_witness :
  let r := run (scripted answered) askQuestion [] in
  documents (fst r)
  = [{| content := js "# Question: How do we log in?" ++ nl ++ nl
                   ++ js "## Answer" ++ nl ++ js "With a cookie.";
        language := js "markdown" |}]
  /\ revealed (fst r) = map snd (opened (fst r))
  /\ notifications (fst r) = []
  /\ snd r = Returned tt.
Proof.
  apply (@ask_answer_document (scripted answered)
           (VObj [(js "success", VBool true);
                  (js "data",
                   VObj [(js "answer", VStr (js "With a cookie."))])])
           (js "How do we log in?") (js "With a cookie."));
    vm_compute; auto.
Defined.

(** X7.  On a success the addEntry command names the typed title in one
    information message, and opens nothing.  It does not read [data], so
    a success without data is a success for it. *)
Theorem addEntry_created_notice (w : world) (v : value) (title : jstring) :
  let r := run w addEntry [] in
  results (fst r) = [v] ->
  is_success v = true ->
  In (js "Enter entry title", Some title) (inputs (fst r)) ->
  notifications (fst r)
  = [(Information,
      js "Entry " ++ dquote ++ title ++ dquote
      ++ js " created successfully!")]
  /\ documents (fst r) = []
  /\ snd r = Returned tt.
Proof.
  unfold addEntry. prefix w.
  all: try (intros V; discriminate V).
  all: with_result w v; quiet_exchange input_of; quiet_rest input_of;
    intros S I; rewrite app_assoc in T;
    match type of T with run _ _ ?p = _ => remember p as past eqn:Hp end;
    rewrite succeeded_pure, S in T; cbn in T; finished w T;
    destruct (exchange_success_quiet E S) as [N _];
    unfold notifications in N; rewrite N;
    quiet_exchange document_of;
    pick_input I;
    cbn; repeat split; reflexivity.
Qed.

Lemma addEntry_created_notice_witness :
  let r := run (scripted adds_login) addEntry [] in
  notifications (fst r)
  = [(Information,
      js "Entry " ++ dquote ++ js "Login" ++ dquote
      ++ js " created successfully!")]
  /\ documents (fst r) = []
  /\ snd r = Returned tt.
Proof.
  apply (@addEntry_created_notice (scripted adds_login)
           (VObj [(js "success", VBool true)]) (js "Login"));
    vm_compute; auto.
Defined.

(** X8.  When the content box is left empty and no text is selected in
    the editor, the addEntry command shows the warning "Content is
    required" and stops: it never asks for tags and sends nothing. *)
Theorem addEntry_content_required (w : world) (typed : option jstring) :
  let r := run w addEntry [] in
  In (js "Enter entry content", typed) (inputs (fst r)) ->
  truthy typed = false ->
  truthy (hd_error (selections (fst r))) = false ->
  notifications (fst r) = [(Warning, js "Content is required")]
  /\ requests (fst r) = []
  /\ ~ In (js "Enter tags (comma-separated)") (map fst (inputs (fst r)))
  /\ snd r = Returned tt.
Proof.
  unfold addEntry. prefix w.
  all: try (intros I Tt Ts; cbn in Tt, Ts; pick_input I;
            try discriminate Tt; try discriminate Ts;
            repeat split; try reflexivity;
            cbn; intros K;
            repeat match type of K with
                   | _ \/ _ => destruct K as [K | K]
                   | False => contradiction K
                   end; vm_compute in K; discriminate K).
  all: at_request w; observe; quiet_exchange input_of; quiet_rest input_of;
    quiet_exchange selection_of; quiet_rest selection_of;
    intros I Tt Ts; cbn in Ts; pick_input I;
    try discriminate Tt; discriminate Ts.
Qed.

Lemma addEntry_content_required_witness :
  let r := run (scripted leaves_content_empty) addEntry [] in
  In (js "Enter entry content", None) (inputs (fst r))
  /\ notifications (fst r) = [(Warning, js "Content is required")]
  /\ requests (fst r) = []
  /\ ~ In (js "Enter tags (comma-separated)") (map fst (inputs (fst r)))
  /\ snd r = Returned tt.
Proof.
  split; [vm_compute; auto |].
  apply (@addEntry_content_required (scripted leaves_content_empty) None);
    vm_compute; auto.
Defined.

(** ** The pieces of the tags box *)

Lemma split_cons (sep : N) (s : jstring) :
  exists p ps, split sep s = p :: ps.
Proof.
  destruct s as [| c r]; unfold split; fold split; eauto.
  destruct (c =? sep)%N; eauto.
  destruct (split sep r); eauto.
Qed.

Lemma split_length (sep : N) (s : jstring) :
  List.length (split sep s) = S (count_occ N.eq_dec s sep).
Proof.
  induction s as [| c r IH]; [reflexivity |].
  unfold split; fold split. cbn [count_occ].
  destruct (N.eqb_spec c sep) as [-> | D].
  - destruct (N.eq_dec sep sep) as [_ | K]; [| contradiction].
    cbn [List.length]. now rewrite IH.
  - destruct (N.eq_dec c sep) as [K | _]; [contradiction |].
    destruct (split_cons sep r) as (p & ps & E). rewrite E in *.
    exact IH.
Qed.

Lemma split_no_separator (sep : N) (s : jstring) :
  Forall (fun p => ~ In sep p) (split sep s).
Proof.
  induction s as [| c r IH]; unfold split; fold split.
  - constructor; auto.
  - destruct (N.eqb_spec c sep) as [-> | D].
    + constructor; auto.
    + destruct (split_cons sep r) as (p & ps & E). rewrite E in *.
      inversion IH as [| ? ? Hp Hps]; subst.
      constructor; auto.
      intros [K | K]; [now apply D | now apply Hp].
Qed.

Lemma trimStart_incl (s : jstring) (c : N) : In c (trimStart s) -> In c s.
Proof.
  destruct (trimStart_suffix s) as [p E]. intros H.
  rewrite E. apply in_or_app. now right.
Qed.

Lemma trim_incl (s : jstring) (c : N) : In c (trim s) -> In c s.
Proof.
  unfold trim, trimEnd. intros H.
  apply trimStart_incl. apply in_rev.
  apply trimStart_incl. now apply in_rev.
Qed.

Lemma trim_clean (s : jstring) :
  starts_clean (trim s) /\ starts_clean (rev (trim s)).
Proof.
  split.
  - apply trimEnd_clean, trimStart_clean.
  - unfold trim, trimEnd. rewrite rev_involutive. apply trimStart_clean.
Qed.

(** X9.  Text typed in the tags box is cut at every comma and at commas
    only: a request of addEntry carries one tag more than there are commas
    in the text, so a piece that is empty or blank is sent as an empty
    tag and not dropped; no tag holds a comma, and none begins or ends
    with white space. *)
Theorem addEntry_tags_pieces (w : world) :
  let tr := fst (run w addEntry []) in
  Forall (fun r =>
    exists typed tags,
      In (js "Enter tags (comma-separated)", typed) (inputs tr)
      /\ sent r (js "tags") = VArr (map VStr tags)
      /\ (forall s, typed = Some s -> s <> [] ->
          List.length tags = S (count_occ N.eq_dec s comma))
      /\ Forall (fun t => ~ In comma t
                          /\ starts_clean t /\ starts_clean (rev t)) tags)
    (requests tr).
Proof.
  intros tr. eapply Forall_impl; [| exact (addEntry_requests w)].
  intros r (base & ty & ti & ci & tg & past & _ & _ & I & _ & _ & _ & ->).
  exists tg, (tags_of tg). fold tr in I. rewrite I.
  split; [simpl; auto |]. split; [reflexivity |]. split.
  - intros s -> N. destruct s as [| c s]; [contradiction |].
    unfold tags_of. cbn [truthy optional ToBoolean is_empty negb or_default].
    now rewrite length_map, split_length.
  - unfold tags_of. destruct (truthy tg); [| constructor].
    apply Forall_map.
    eapply Forall_impl; [| apply split_no_separator].
    intros p Hp. split; [| apply trim_clean].
    intros K. apply Hp. now apply trim_incl.
Qed.

(** ** What [encodeURIComponent] writes *)

Lemma lor_below (a b n : N) :
  (a < 2 ^ n -> b < 2 ^ n -> N.lor a b < 2 ^ n)%N.
Proof.
  intros A B.
  destruct (N.eq_dec (N.lor a b) 0) as [Z | Z].
  - rewrite Z. apply N.neq_0_lt_0. apply N.pow_nonzero. discriminate.
  - apply N.log2_lt_pow2; [now apply N.neq_0_lt_0 |].
    rewrite N.log2_lor.
    destruct (N.eq_dec a 0) as [-> | Za];
      destruct (N.eq_dec b 0) as [-> | Zb].
    + contradiction Z. reflexivity.
    + rewrite N.max_r by apply N.le_0_l.
      apply N.log2_lt_pow2; [now apply N.neq_0_lt_0 | exact B].
    + rewrite N.max_l by apply N.le_0_l.
      apply N.log2_lt_pow2; [now apply N.neq_0_lt_0 | exact A].
    + apply N.max_lub_lt; apply N.log2_lt_pow2; auto;
        now apply N.neq_0_lt_0.
Qed.

Lemma continuation_octet (x : N) : (N.lor 128 (N.land x 63) < 256)%N.
Proof.
  apply (@lor_below 128 (N.land x 63) 8); [reflexivity |].
  change 63%N with (N.ones 6). rewrite N.land_ones.
  apply N.lt_trans with (2 ^ 6)%N; [| reflexivity].
  apply N.mod_lt. discriminate.
Qed.

Lemma leading_octet (tag x bound : N) :
  (tag < 256 -> x < bound -> bound <= 256 ->
   N.lor tag x < 256)%N.
Proof.
  intros T X B. apply (@lor_below tag x 8); [exact T |].
  apply N.lt_le_trans with bound; assumption.
Qed.

Lemma shiftr_below (cp k bound : N) :
  (cp < bound * 2 ^ k -> N.shiftr cp k < bound)%N.
Proof.
  intros H. rewrite N.shiftr_div_pow2.
  apply N.Div0.div_lt_upper_bound. now rewrite N.mul_comm.
Qed.

Lemma utf8_octets (cp : N) :
  (cp < 2097152)%N -> Forall (fun b => (b < 256)%N) (utf8 cp).
Proof.
  intros H. unfold utf8.
  destruct (N.ltb_spec cp 128) as [L1 | L1].
  { repeat constructor. now apply N.lt_trans with 128%N. }
  destruct (N.ltb_spec cp 2048) as [L2 | L2].
  { repeat constructor; [| apply continuation_octet].
    apply (@leading_octet 192 _ 32); try reflexivity; [| discriminate].
    now apply (@shiftr_below cp 6 32). }
  destruct (N.ltb_spec cp 65536) as [L3 | L3].
  { repeat constructor; try apply continuation_octet.
    apply (@leading_octet 224 _ 16); try reflexivity; [| discriminate].
    now apply (@shiftr_below cp 12 16). }
  repeat constructor; try apply continuation_octet.
  apply (@leading_octet 240 _ 8); try reflexivity; [| discriminate].
  now apply (@shiftr_below cp 18 8).
Qed.

Lemma hex_digit_safe (d : N) : (d < 16)%N -> url_safe (hex_digit d) = true.
Proof.
  intros H. unfold url_safe, hex_digit, uri_unreserved.
  destruct (N.ltb_spec d 10) as [L | L].
  - assert (A : (48 <=? 48 + d)%N = true) by (apply N.leb_le; lia).
    assert (B : (48 + d <=? 57)%N = true) by (apply N.leb_le; lia).
    rewrite A, B. cbn. now rewrite ?orb_true_r.
  - assert (A : (65 <=? 55 + d)%N = true) by (apply N.leb_le; lia).
    assert (B : (55 + d <=? 90)%N = true) by (apply N.leb_le; lia).
    rewrite A, B. reflexivity.
Qed.

Lemma percent_safe (octet : N) :
  (octet < 256)%N -> Forall (fun c => url_safe c = true) (percent octet).
Proof.
  intros H. unfold percent. repeat constructor.
  - apply hex_digit_safe. apply N.Div0.div_lt_upper_bound. exact H.
  - apply hex_digit_safe. apply N.mod_lt. discriminate.
Qed.

Lemma escape_safe (cp : N) :
  (cp < 2097152)%N -> Forall (fun c => url_safe c = true) (escape cp).
Proof.
  intros H. unfold escape.
  pose proof (utf8_octets H) as O.
  induction O as [| b bs Hb _ IH]; cbn [flat_map]; [constructor |].
  apply Forall_app. split; [now apply percent_safe | exact IH].
Qed.

Lemma encodeURIComponent_unfold (c : N) (r : jstring) :
  encodeURIComponent (c :: r)
  = if uri_unreserved c then option_map (cons c) (encodeURIComponent r)
    else if is_trailing_surrogate c then None
    else if is_leading_surrogate c then
      match r with
      | d :: r' =>
          if is_trailing_surrogate d then
            option_map
              (app (escape ((c - 55296) * 1024 + (d - 56320) + 65536)))
              (encodeURIComponent r')
          else None
      | [] => None
      end
    else option_map (app (escape c)) (encodeURIComponent r).
Proof. reflexivity. Qed.

Lemma encodeURIComponent_safe (n : nat) :
  forall s enc,
    List.length s <= n ->
    Forall code_unit s ->
    encodeURIComponent s = Some enc ->
    Forall (fun c => url_safe c = true) enc.
Proof.
  induction n as [| n IH]; intros s enc L U E.
  - destruct s; [| cbn in L; lia]. injection E as <-. constructor.
  - destruct s as [| c r]; [injection E as <-; constructor |].
    rewrite encodeURIComponent_unfold in E.
    inversion U as [| ? ? Uc Ur]; subst. cbn in L.
    destruct (uri_unreserved c) eqn:S.
    { destruct (encodeURIComponent r) as [e |] eqn:R; [| discriminate].
      injection E as <-. constructor.
      - unfold url_safe. now rewrite S.
      - apply (IH r e); auto. lia. }
    destruct (is_trailing_surrogate c); [discriminate |].
    destruct (is_leading_surrogate c) eqn:Lc.
    + destruct r as [| d r']; [discriminate |].
      destruct (is_trailing_surrogate d) eqn:Td; [| discriminate].
      destruct (encodeURIComponent r') as [e |] eqn:R; [| discriminate].
      injection E as <-.
      inversion Ur as [| ? ? Ud Ur']; subst. cbn in L.
      apply Forall_app. split.
      * apply escape_safe.
        unfold is_leading_surrogate, is_trailing_surrogate in *.
        apply andb_true_iff in Lc, Td.
        destruct Lc as [_ Lc], Td as [_ Td].
        apply N.leb_le in Lc, Td. lia.
      * apply (IH r' e); auto. lia.
    + destruct (encodeURIComponent r) as [e |] eqn:R; [| discriminate].
      injection E as <-. apply Forall_app. split.
      * apply escape_safe. unfold code_unit in Uc. lia.
      * apply (IH r e); auto. lia.
Qed.

(** X10.  The query of a search request is safe for a URL: whatever
    string of 16-bit code units was typed, what follows [q=] holds only
    letters, digits, [- _ . ! ~ * ' ( )] and the per cent sign, so the
    typed text cannot add a parameter or a fragment to the URL. *)
Theorem search_query_url_safe (w : world) :
  let tr := fst (run w search []) in
  Forall (fun i => match snd i with
                   | Some s => Forall code_unit s
                   | None => True
                   end) (inputs tr) ->
  Forall (fun r =>
    exists base enc,
      fst r = base ++ js "/api/search?q=" ++ enc
      /\ forallb url_safe enc = true)
    (requests tr).
Proof.
  unfold search. prefix w.
  all: try (intros _; apply Forall_nil).
  at_request w. observe. quiet_exchange input_of. quiet_rest input_of.
  quiet_rest request_of.
  cbn [collect flat_map app input_of request_of prompt]. rewrite ?app_nil_r.
  intros U. inversion U as [| ? ? Us _]; subst. cbn in Us.
  destruct (exchange_requests E) as [Q | [base Q]]; unfold requests in Q;
    rewrite Q; [apply Forall_nil | apply Forall_cons; [| apply Forall_nil]].
  exists base. eexists. split; [reflexivity |].
  apply forallb_forall. apply Forall_forall.
  eapply (@encodeURIComponent_safe _ _ _ (le_n _) Us).
  match goal with H : encodeURIComponent _ = Some _ |- _ => exact H end.
Qed.

Lemma search_query_url_safe_witness :
  let tr := fst (run (scripted one_result) search []) in
  Forall (fun r =>
    exists base enc,
      fst r = base ++ js "/api/search?q=" ++ enc
      /\ forallb url_safe enc = true)
    (requests tr).
Proof.
  apply (search_query_url_safe (scripted one_result)).
  vm_compute. repeat constructor.
Defined.

(** X11.  A query that holds an unpaired surrogate makes the search
    command throw the [URIError] of [encodeURIComponent]: nothing is
    sent and nothing is shown. *)
Theorem search_unpaired_surrogate (w : world) (q : jstring) :
  let r := run w search [] in
  In (js "Search the knowledge base", Some q) (inputs (fst r)) ->
  q <> [] ->
  encodeURIComponent q = None ->
  snd r = Thrown URIError
  /\ requests (fst r) = []
  /\ notifications (fst r) = []
  /\ List.length (fst r) = 1.
Proof.
  unfold search. prefix w.
  all: try (intros I N U; pick_input I; try contradiction;
            repeat split; reflexivity).
  at_request w. observe. quiet_exchange input_of. quiet_rest input_of.
  intros I N U. pick_input I.
  match goal with H : encodeURIComponent _ = Some _ |- _ => cbn in H; congruence end.
Qed.

Lemma search_unpaired_surrogate_witness :
  let r := run (scripted types_surrogate) search [] in
  snd r = Thrown URIError
  /\ requests (fst r) = []
  /\ notifications (fst r) = []
  /\ List.length (fst r) = 1.
Proof.
  apply (@search_unpaired_surrogate (scripted types_surrogate) [55357%N]);
    vm_compute; auto. discriminate.
Defined.

(** ** After the quick-pick of search results *)

Lemma throws_bind (A B : Type) (p : prog A) (f : A -> prog B) :
  (forall a, throws (f a)) -> throws (bind p f).
Proof.
  intros H. induction p as [a | e | X c k IH]; cbn; auto.
Qed.

Lemma throws_run (A : Type) (w : world) (p : prog A) :
  throws p -> forall past, exists x, snd (run w p past) = Thrown x.
Proof.
  induction p as [a | e | X c k IH]; cbn; intros H past.
  - contradiction.
  - now exists e.
  - apply IH, H.
Qed.

(** A run of [search] shows no quick-pick, and then no document, or it
    shows one and goes on as [open_selected] does with the answer. *)
Lemma search_choice (w : world) :
  let r := run w search [] in
  (choices (fst r) = [] /\ documents (fst r) = [] /\ revealed (fst r) = [])
  \/ exists before items answer,
       choices (fst r) = [(items, answer)]
       /\ choices before = []
       /\ documents before = []
       /\ revealed before = []
       /\ notifications before = []
       /\ r = run w (open_selected answer)
                (before ++ [Event (ShowQuickPickItems items search_options)
                                  answer]).
Proof.
  unfold search. prefix w.
  all: try (left; repeat split; reflexivity).
  at_request w. observe. observe_more.
  quiet_exchange choice_of. quiet_exchange document_of.
  quiet_exchange revealed_of.
  cbn [collect flat_map app choice_of document_of revealed_of].
  destruct o as [v | x].
  2: { destruct T as [-> ->]. left. repeat split; reflexivity. }
  rewrite app_assoc in T.
  match type of T with run _ _ ?q = _ => remember q as past eqn:Hp end.
  rewrite succeeded_pure in T. cbn [bind] in T.
  assert (Quiet : forall p : prog unit,
             only telling p ->
             run w p past = (past ++ rest, final) ->
             collect choice_of rest = [] /\ collect document_of rest = []
             /\ collect revealed_of rest = []).
  { intros p O Tp.
    destruct (@only_run telling _ w p O past) as (added & o' & R' & F').
    rewrite R' in Tp. injection Tp as T1 T2.
    apply app_inv_head in T1. subst rest.
    rewrite (@collect_only telling _ choice_of added ltac:(side) F').
    rewrite (@collect_only telling _ document_of added ltac:(side) F').
    rewrite (@collect_only telling _ revealed_of added ltac:(side) F').
    repeat split; reflexivity. }
  destruct (is_success v) eqn:S.
  - destruct (is_success_object v S) as [props ->].
    rewrite !Get_object in T. cbn [bind] in T.
    destruct (prop (VObj props) (js "data")) as [| | b | q | s | l | ps] eqn:D.
    all: try (left; (eapply Quiet; [| exact T]); solve [only_calls]).
    rewrite Get_array_length in T. cbn [bind GreaterThanZero] in T.
    destruct l as [| e l].
    { change (negb (Qle_bool (inject_Z (Z.of_nat (@List.length value []))) 0))
        with false in T.
      cbn [bind] in T. left. (eapply Quiet; [| exact T]); solve [only_calls]. }
    cbn [List.length] in T. rewrite length_positive in T.
    unfold array_map in T.
    destruct (for_each_to_item (e :: l)) as [I | (items & I & D2)];
      rewrite I in T; cbn [bind] in T.
    { left. (eapply Quiet; [| exact T]); solve [only_calls]. }
    cbn [run] in T. fold search_options in T.
    match type of T with
    | context [w ?X ?a ?c] => generalize dependent (w X a c); intros x T
    end.
    right.
    destruct (exchange_success_quiet E S) as [N _].
    exists past, items, x.
    pose proof (@run_extends _ w (open_selected x)
                  (past ++ [Event (ShowQuickPickItems items search_options) x]))
      as [more M].
    change (run w (open_selected x)
              (past ++ [Event (ShowQuickPickItems items search_options) x])
            = (past ++ rest, final)) in T.
    rewrite T in M. cbn [fst] in M. rewrite <- app_assoc in M.
    apply app_inv_head in M.
    assert (C : collect choice_of more = []).
    { assert (O : only display (open_selected x))
        by (unfold open_selected; only_calls).
      destruct (@only_run display _ w _ O
                  (past ++ [Event (ShowQuickPickItems items search_options) x]))
        as (added & o' & R' & F').
      rewrite R' in T. injection T as T1 _.
      rewrite M, <- !app_assoc in T1.
      apply app_inv_head in T1. cbn in T1. injection T1 as <-.
      apply (@collect_only display _ choice_of added ltac:(side) F'). }
    rewrite M, collect_app, C. cbn [collect flat_map app choice_of].
    split; [reflexivity |].
    subst past. unfold choices, documents, revealed, notifications.
    rewrite !collect_app. quiet_exchange choice_of.
    quiet_exchange document_of. quiet_exchange revealed_of.
    unfold notifications in N. rewrite N.
    repeat split; try reflexivity.
    rewrite T, M. cbn [app]. reflexivity.
  - cbn [bind] in T. left. (eapply Quiet; [| exact T]); solve [only_calls].
Qed.

Lemma documents_opened (tr : trace) : documents tr = map fst (opened tr).
Proof.
  unfold documents, opened.
  induction tr as [| [X c a] tr IH]; [reflexivity |].
  unfold collect in *. cbn [flat_map]. rewrite map_app, IH.
  f_equal. destruct c; reflexivity.
Qed.

Lemma join_strings (tags : list jstring) (sep : jstring) :
  array_join (VArr (map VStr tags)) sep = Ret (intercalate sep tags).
Proof.
  unfold array_join.
  assert (E : for_each (fun x => match x with
                                 | VUndefined | VNull => Ret []
                                 | _ => ToString x
                                 end) (map VStr tags) = Ret tags).
  { induction tags as [| t tags IH]; [reflexivity |].
    cbn [map for_each ToString bind]. now rewrite IH. }
  now rewrite E.
Qed.

Lemma truthy_present (v : value) :
  ToBoolean v = true ->
  match v with VUndefined | VNull => False | _ => True end.
Proof. destruct v; cbn; auto; discriminate. Qed.

(** X12.  When an item is chosen whose entry has strings for title, type
    and content and an array of strings for tags, the search command
    opens one markdown document: the title as heading, the type, the tags
    joined by ", ", a rule, and the whole content, not only its first 100
    code units; it brings the document to the front. *)
Theorem search_opens_selected (w : world) (items : list quick_pick_item)
    (item : quick_pick_item) (title type text : jstring)
    (tags : list jstring) :
  let r := run w search [] in
  choices (fst r) = [(items, Some item)] ->
  prop (entry item) (js "title") = VStr title ->
  prop (entry item) (js "type") = VStr type ->
  prop (entry item) (js "tags") = VArr (map VStr tags) ->
  prop (entry item) (js "content") = VStr text ->
  documents (fst r)
  = [{| content := js "# " ++ title ++ nl ++ nl
                   ++ js "**Type:** " ++ type ++ nl
                   ++ js "**Tags:** " ++ intercalate (js ", ") tags
                   ++ nl ++ nl ++ js "---" ++ nl ++ nl ++ text;
        language := js "markdown" |}]
  /\ revealed (fst r) = map snd (opened (fst r))
  /\ notifications (fst r) = []
  /\ snd r = Returned tt.
Proof.
  intros r C Ht Hy Hg Hc.
  destruct (search_choice w)
    as [(C0 & _) | (before & items' & answer & C1 & _ & Db & Rb & Nb & Er)];
    fold r in C0 || fold r in C1, Er.
  { rewrite C0 in C. discriminate C. }
  rewrite C1 in C. injection C as -> ->.
  assert (Ob : opened before = []).
  { pose proof (documents_opened before) as K. rewrite Db in K.
    symmetry in K. now apply map_eq_nil in K. }
  rewrite Er. clear Er C1 r.
  unfold open_selected.
  destruct (entry item) as [| | b | q | s | l | props] eqn:Ee;
    try discriminate Ht.
  cbn [ToBoolean]. rewrite !Get_object, Ht, Hy, Hg, Hc.
  cbn [bind ToString]. rewrite join_strings. cbn [bind perform run].
  match goal with
  | |- context [w text_document ?a ?c] => generalize (w text_document a c)
  end.
  intros doc.
  match goal with
  | |- context [w unit ?a ?c] => destruct (w unit a c)
  end.
  cbn [fst snd]. unfold documents, revealed, opened, notifications in *.
  rewrite !collect_app, Db, Rb, Ob, Nb.
  repeat split; reflexivity.
Qed.

Lemma search_opens_selected_witness :
  let r := run (scripted one_result) search [] in
  documents (fst r)
  = [{| content := js "# Login" ++ nl ++ nl
                   ++ js "**Type:** decision" ++ nl
                   ++ js "**Tags:** Auth, security"
                   ++ nl ++ nl ++ js "---" ++ nl ++ nl
                   ++ js "Sessions are kept in a cookie.";
        language := js "markdown" |}]
  /\ revealed (fst r) = map snd (opened (fst r))
  /\ notifications (fst r) = []
  /\ snd r = Returned tt.
Proof.
  pose (e := VObj [(js "title", VStr (js "Login"));
                   (js "type", VStr (js "decision"));
                   (js "content", VStr (js "Sessions are kept in a cookie."));
                   (js "tags", VArr [VStr (js "Auth"); VStr (js "security")])]).
  pose (i := {| label := VStr (js "Login");
                description := VStr (js "decision");
                detail := js "Sessions are kept in a cookie....";
                entry := e |}).
  apply (@search_opens_selected (scripted one_result) [i] i (js "Login")
           (js "decision") (js "Sessions are kept in a cookie.")
           [js "Auth"; js "security"]);
    vm_compute; reflexivity.
Defined.

(** X13.  The search command shows at most one quick-pick and opens a
    document only for a chosen item whose entry is truthy: when the
    quick-pick is dismissed, it ends with no document and no message. *)
Theorem search_opens_only_chosen (w : world) :
  let r := run w search [] in
  List.length (choices (fst r)) <= 1
  /\ (documents (fst r) <> [] ->
      exists items item,
        choices (fst r) = [(items, Some item)]
        /\ ToBoolean (entry item) = true)
  /\ (forall items,
        choices (fst r) = [(items, None)] ->
        documents (fst r) = []
        /\ notifications (fst r) = []
        /\ snd r = Returned tt).
Proof.
  intros r.
  destruct (search_choice w)
    as [(C0 & D0 & _) | (before & items & answer & C1 & _ & Db & _ & Nb & Er)];
    fold r in C0, D0 || fold r in C1, Er.
  { rewrite C0, D0. split; [cbn; lia |]. split; [congruence | discriminate]. }
  rewrite C1. split; [cbn; lia |].
  destruct answer as [item |].
  - split; [| discriminate]. intros D.
    exists items, item. split; [reflexivity |].
    destruct (ToBoolean (entry item)) eqn:Te; [reflexivity |].
    contradiction D. rewrite Er. unfold open_selected. rewrite Te.
    cbn [run fst]. unfold documents in *. now rewrite collect_app, Db.
  - assert (K : documents (fst r) = [] /\ notifications (fst r) = []
                /\ snd r = Returned tt).
    { rewrite Er. cbn [open_selected run fst snd].
      unfold documents, notifications in *.
      now rewrite !collect_app, Db, Nb. }
    split; [intros D; now destruct K as [K _] |].
    intros items' _. exact K.
Qed.

(** X14.  The quick-pick lists an entry whatever its tags are, but
    choosing an entry whose [tags] is no array makes the search command
    throw: no document opens. *)
Theorem search_entry_without_tags (w : world) (items : list quick_pick_item)
    (item : quick_pick_item) :
  let r := run w search [] in
  choices (fst r) = [(items, Some item)] ->
  ToBoolean (entry item) = true ->
  match prop (entry item) (js "tags") with VArr _ => False | _ => True end ->
  (exists x, snd r = Thrown x)
  /\ documents (fst r) = []
  /\ revealed (fst r) = [].
Proof.
  intros r C Te Hg.
  destruct (search_choice w)
    as [(C0 & _) | (before & items' & answer & C1 & _ & Db & Rb & Nb & Er)];
    fold r in C0 || fold r in C1, Er.
  { rewrite C0 in C. discriminate C. }
  rewrite C1 in C. injection C as -> ->.
  rewrite Er. clear Er C1 r.
  set (past := before ++ _).
  pose proof (truthy_present _ Te) as Pe.
  assert (P : exists p : prog unit,
             open_selected (Some item) = p /\ throws p /\ only telling p).
  { eexists. split; [reflexivity |].
    unfold open_selected. rewrite Te.
    rewrite (Get_present _ (js "title") eq_refl Pe),
      (Get_present _ (js "type") eq_refl Pe),
      (Get_present _ (js "tags") eq_refl Pe),
      (Get_present _ (js "content") eq_refl Pe).
    cbn [bind].
    destruct (prop (entry item) (js "tags")) as [| | b | q | s | l | ps];
      try contradiction; cbn [array_join bind].
    all: split;
      [ repeat (apply throws_bind; intro); exact I
      | repeat (apply only_bind; [apply only_ToString; side | intro]);
        exact I ]. }
  destruct P as (p & -> & Th & On).
  destruct (throws_run w p Th past) as [x Hx].
  destruct (@only_run telling _ w p On past) as (added & o & R & F).
  split; [now exists x |].
  rewrite R. cbn [fst]. subst past.
  unfold documents, revealed in *. rewrite !collect_app, Db, Rb.
  rewrite (@collect_only telling _ document_of added ltac:(side) F).
  rewrite (@collect_only telling _ revealed_of added ltac:(side) F).
  split; reflexivity.
Qed.

Lemma search_entry_without_tags_witness :
  let r := run (scripted untagged_result) search [] in
  (exists x, snd r = Thrown x)
  /\ documents (fst r) = []
  /\ revealed (fst r) = [].
Proof.
  pose (e := VObj [(js "title", VStr (js "Login"));
                   (js "type", VStr (js "decision"));
                   (js "content",
                    VStr (js "Sessions are kept in a cookie."))]).
  pose (i := {| label := VStr (js "Login");
                description := VStr (js "decision");
                detail := js "Sessions are kept in a cookie....";
                entry := e |}).
  apply (@search_entry_without_tags (scripted untagged_result) [i] i);
    vm_compute; auto.
Defined.

(** The run of [indexProject], case by case over the answers. *)
Ltac index_cases w :=
  unfold indexProject, getDataDir, getConfig; cbn;
  repeat (match goal with
          | |- context [w ?X ?p ?c] => destruct (w X p c) eqn:?
          | |- context [match ?l with [] => _ | _ :: _ => _ end] =>
              is_var l; destruct l
          | |- context [ToBoolean ?v] => is_var v; destruct v
          | |- context [is_empty ?s] => is_var s; destruct s
          | |- context [if ?b then _ else _] =>
              let E := fresh "E" in
              destruct b eqn:E;
              try solve [exfalso; vm_compute in E; discriminate E]
          end; cbn).

(** X15.  With no workspace folder, none or an empty list, the index
    command shows the warning "No workspace folder open" and does nothing
    else: it reads no setting, looks for no directory and no file. *)
Theorem indexProject_no_workspace (w : world) :
  let r := run w indexProject [] in
  workspaces (fst r) = [None] \/ workspaces (fst r) = [Some []] ->
  notifications (fst r) = [(Warning, js "No workspace folder open")]
  /\ settings (js "dataDir") (fst r) = []
  /\ checked (fst r) = []
  /\ created (fst r) = []
  /\ globs (fst r) = []
  /\ snd r = Returned tt.
Proof.
  index_cases w.
  all: intros [H | H]; try discriminate H.
  all: repeat split; reflexivity.
Qed.

Lemma indexProject_no_workspace_witness :
  let r := run no_folder indexProject [] in
  notifications (fst r) = [(Warning, js "No workspace folder open")]
  /\ settings (js "dataDir") (fst r) = []
  /\ checked (fst r) = []
  /\ created (fst r) = []
  /\ globs (fst r) = []
  /\ snd r = Returned tt.
Proof.
  apply (indexProject_no_workspace no_folder). left. vm_compute. reflexivity.
Defined.

(** X16.  A [devkb.dataDir] setting that is a non-empty string is joined
    as it is under the path of the first workspace folder: the index
    command looks for that directory once, and creates it, recursively,
    when it is missing; an existing one is left alone. *)
Theorem indexProject_data_dir (w : world) (folder : workspace_folder)
    (others : list workspace_folder) (d : jstring) :
  let r := run w indexProject [] in
  workspaces (fst r) = [Some (folder :: others)] ->
  settings (js "dataDir") (fst r) = [VStr d] ->
  d <> [] ->
  exists present,
    checked (fst r) = [(path_join (fsPath folder) d, present)]
    /\ created (fst r)
       = if present then [] else [(path_join (fsPath folder) d, true)].
Proof.
  index_cases w.
  all: intros W S D; try discriminate W; try discriminate S.
  all: inversion W; inversion S; subst; try (now contradiction D).
  all: eexists; split; reflexivity.
Qed.

Lemma indexProject_data_dir_witness :
  let r := run (scripted configured) indexProject [] in
  exists present,
    checked (fst r)
    = [(path_join (js "/home/dev/project") (js "notes/kb"), present)]
    /\ created (fst r)
       = if present then []
         else [(path_join (js "/home/dev/project") (js "notes/kb"), true)].
Proof.
  apply (@indexProject_data_dir (scripted configured)
           {| fsPath := js "/home/dev/project" |} [] (js "notes/kb"));
    [vm_compute; reflexivity | vm_compute; reflexivity | discriminate].
Defined.

(** X17.  When the index command ends without an exception in an open
    workspace, it has searched the first folder once, for every file
    outside [node_modules], and shown two information messages: the
    number of files found, in decimal, and the hint to the CLI. *)
Theorem indexProject_reports_count (w : world) (folder : workspace_folder)
    (others : list workspace_folder) :
  let r := run w indexProject [] in
  workspaces (fst r) = [Some (folder :: others)] ->
  snd r = Returned tt ->
  exists files,
    globs (fst r) = [(every_file folder, in_node_modules folder, files)]
    /\ notifications (fst r)
       = [(Information,
           js "Found " ++ decimal (List.length files)
           ++ js " files to index");
          (Information, js "Use the DevKB CLI to index: devkb index")].
Proof.
  index_cases w.
  all: intros W R; try discriminate W; try discriminate R.
  all: inversion W; subst.
  all: eexists; split; reflexivity.
Qed.

Lemma indexProject_reports_count_witness :
  let r := run (scripted adds_login) indexProject [] in
  exists files,
    globs (fst r)
    = [(every_file {| fsPath := js "/home/dev/project" |},
        in_node_modules {| fsPath := js "/home/dev/project" |}, files)]
    /\ notifications (fst r)
       = [(Information,
           js "Found " ++ decimal (List.length files)
           ++ js " files to index");
          (Information, js "Use the DevKB CLI to index: devkb index")].
Proof.
  apply (@indexProject_reports_count (scripted adds_login)
           {| fsPath := js "/home/dev/project" |} []);
    vm_compute; reflexivity.
Defined.

(** X18.  Nothing in the index command catches an exception.  It throws
    a [TypeError] before it looks for a directory when the [dataDir]
    setting is truthy and no string, and the error of [fs.mkdirSync] when
    the missing directory cannot be created; either way it shows no
    message and searches no file. *)
Theorem indexProject_failure_uncaught (w : world) (x : exn) :
  let r := run w indexProject [] in
  snd r = Thrown x ->
  notifications (fst r) = []
  /\ globs (fst r) = []
  /\ ((x = TypeError
       /\ checked (fst r) = []
       /\ exists v,
            settings (js "dataDir") (fst r) = [v]
            /\ ToBoolean v = true
            /\ forall d, v <> VStr d)
      \/ exists reason p,
           x = HostError reason
           /\ checked (fst r) = [(p, false)]
           /\ created (fst r) = [(p, true)]
           /\ rejections (fst r) = []).
Proof.
  index_cases w.
  all: intros R; try discriminate R; injection R as <-.
  all: split; [reflexivity |]; split; [reflexivity |].
  all: first
    [ left; split; [reflexivity |]; split; [reflexivity |];
      eexists; split; [reflexivity |]; split; [cbn; auto |];
      intros d; discriminate
    | right; do 2 eexists; repeat split; reflexivity ].
Qed.

Lemma indexProject_failure_uncaught_witness :
  let r := run read_only indexProject [] in
  snd r = Thrown (HostError (js "Error: EROFS: read-only file system, mkdir"))
  /\ notifications (fst r) = []
  /\ globs (fst r) = [].
Proof.
  split; [vm_compute; reflexivity |].
  destruct (@indexProject_failure_uncaught read_only
              (HostError (js "Error: EROFS: read-only file system, mkdir")))
    as (N & G & _); [vm_compute; reflexivity |].
  split; assumption.
Defined.

(** X19.  The index command works on the disk only: it sends no request,
    reads no [apiUrl], opens no input box and no document; it looks for
    at most one directory, and whatever it creates is a directory it has
    just found missing, created recursively. *)
Theorem indexProject_local (w : world) :
  let tr := fst (run w indexProject []) in
  requests tr = []
  /\ settings (js "apiUrl") tr = []
  /\ boxes tr = []
  /\ documents tr = []
  /\ List.length (checked tr) <= 1
  /\ Forall (fun made => snd made = true
                         /\ In (fst made, false) (checked tr))
       (created tr).
Proof.
  index_cases w.
  all: repeat split; try reflexivity; try (cbn; lia).
  all: repeat first [apply Forall_nil | apply Forall_cons];
    cbn; auto.
Qed.

(** ** The statistics message *)

Lemma for_each_counts (counts : list (jstring * jstring)) :
  for_each (fun tc : jstring * value =>
              count <- ToString (snd tc) ;;
              Ret (js "  " ++ fst tc ++ js ": " ++ count))
    (map (fun tc => (fst tc, VStr (snd tc))) counts)
  = Ret (map (fun tc => js "  " ++ fst tc ++ js ": " ++ snd tc) counts).
Proof.
  induction counts as [| tc counts IH]; [reflexivity |].
  cbn [map for_each ToString bind fst snd]. now rewrite IH.
Qed.

(** X20.  On a success whose data holds the three counts and, under
    [byType], one count for each type, all of them strings, the stats
    command shows one information message: three lines of totals, an
    empty line, "By Type:", then one line for each type, in the order of
    the object, the lines joined by line feeds. *)
Theorem showStats_message (w : world) (v : value)
    (stats : list (jstring * value)) (totalEntries totalTags searches : jstring)
    (counts : list (jstring * jstring)) :
  let r := run w showStats [] in
  results (fst r) = [v] ->
  is_success v = true ->
  prop v (js "data") = VObj stats ->
  prop (VObj stats) (js "totalEntries") = VStr totalEntries ->
  prop (VObj stats) (js "totalTags") = VStr totalTags ->
  prop (VObj stats) (js "searchHistoryCount") = VStr searches ->
  prop (VObj stats) (js "byType")
  = VObj (map (fun tc => (fst tc, VStr (snd tc))) counts) ->
  notifications (fst r)
  = [(Information,
      intercalate nl (stats_lines totalEntries totalTags searches counts))]
  /\ documents (fst r) = []
  /\ snd r = Returned tt.
Proof.
  unfold showStats. prefix w.
  all: try (intros V; discriminate V).
  with_result w v.
  intros S D Ha Hb Hc Ht. rewrite app_assoc in T.
  match type of T with run _ _ ?p = _ => remember p as past eqn:Hp end.
  rewrite succeeded_pure, S in T. cbn [bind] in T.
  destruct (is_success_object v S) as [props ->].
  rewrite Get_object, D in T. cbn [bind] in T.
  rewrite !Get_object in T. cbn [prop] in T. rewrite Ha, Hb, Hc, Ht in T.
  cbn [bind ToString Object_entries] in T.
  rewrite for_each_counts in T. cbn [bind perform run] in T.
  finished w T.
  destruct (exchange_success_quiet E S) as [N _]. unfold notifications in N.
  quiet_exchange document_of. rewrite N.
  cbn. repeat split; reflexivity.
Qed.

Lemma showStats_message_witness :
  let r := run (scripted counted) showStats [] in
  notifications (fst r)
  = [(Information,
      intercalate nl
        (stats_lines (js "2") (js "3") (js "0")
           [(js "code", js "1"); (js "decision", js "1")]))]
  /\ documents (fst r) = []
  /\ snd r = Returned tt.
Proof.
  pose (stats := [(js "totalEntries", VStr (js "2"));
                  (js "totalTags", VStr (js "3"));
                  (js "searchHistoryCount", VStr (js "0"));
                  (js "byType",
                   VObj [(js "code", VStr (js "1"));
                         (js "decision", VStr (js "1"))])]).
  apply (@showStats_message (scripted counted)
           (VObj [(js "success", VBool true); (js "data", VObj stats)])
           stats (js "2") (js "3") (js "0")
           [(js "code", js "1"); (js "decision", js "1")]);
    vm_compute; reflexivity.
Defined.

(** X21.  A success whose data has no [byType] makes the stats command
    throw, whatever else the data holds: [Object.entries] has nothing to
    list, nothing catches the exception, and no message is shown, not
    even the warning of a failure. *)
Theorem showStats_without_types (w : world) (v : value) :
  let r := run w showStats [] in
  results (fst r) = [v] ->
  is_success v = true ->
  prop (prop v (js "data")) (js "byType") = VUndefined
  \/ prop (prop v (js "data")) (js "byType") = VNull ->
  (exists x, snd r = Thrown x)
  /\ notifications (fst r) = []
  /\ documents (fst r) = [].
Proof.
  unfold showStats. prefix w.
  all: try (intros V; discriminate V).
  with_result w v.
  intros S D. rewrite app_assoc in T.
  match type of T with run _ _ ?p = _ => remember p as past eqn:Hp end.
  rewrite succeeded_pure, S in T. cbn [bind] in T.
  destruct (is_success_object v S) as [props ->].
  rewrite Get_object in T. cbn [bind] in T.
  set (data := prop (VObj props) (js "data")) in *.
  match type of T with
  | run _ ?p _ = _ =>
      assert (P : throws p /\ only silent p)
  end.
  { destruct data as [| | b | q | s | l | stats] eqn:Ed;
      try (split; exact I).
    all: repeat match goal with
                | |- context [Get ?d ?n] =>
                    rewrite (@Get_present d n eq_refl I)
                end;
      cbn [bind];
      destruct D as [D | D]; rewrite D; cbn [Object_entries bind];
      (split;
       [ repeat (apply throws_bind; intro); exact I
       | repeat (apply only_bind; [apply only_ToString; side | intro]);
         exact I ]). }
  destruct P as [Th On].
  match type of T with
  | run _ ?p _ = _ =>
      destruct (throws_run w p Th past) as [x Hx];
      destruct (@only_run silent _ w p On past) as (added & o & Ra & Fa)
  end.
  rewrite T in Hx, Ra. cbn [snd] in Hx.
  injection Ra as Ra _. subst past. cbn [app] in Ra.
  apply app_inv_head in Ra. subst rest final.
  destruct (exchange_success_quiet E S) as [N _]. unfold notifications in N.
  quiet_exchange document_of. rewrite N.
  unfold notifications, documents.
  rewrite ?collect_app.
  rewrite (@collect_only silent _ notification_of added ltac:(side) Fa).
  rewrite ?(@collect_only silent _ document_of added ltac:(side) Fa).
  cbn. split; [now exists x |]. split; reflexivity.
Qed.

Lemma showStats_without_types_witness :
  let r := run (scripted stats_without_types) showStats [] in
  (exists x, snd r = Thrown x)
  /\ notifications (fst r) = []
  /\ documents (fst r) = [].
Proof.
  apply (@showStats_without_types (scripted stats_without_types)
           (VObj [(js "success", VBool true);
                  (js "data",
                   VObj [(js "totalEntries", VStr (js "2"));
                         (js "totalTags", VStr (js "3"));
                         (js "searchHistoryCount", VStr (js "0"))])]));
    [vm_compute; reflexivity | vm_compute; reflexivity
    | left; vm_compute; reflexivity].
Defined.

(** ** A box that is dismissed *)

(** X22.  When the box of the ask or of the search command is dismissed
    or left empty, the box is all the command did: it reads no setting,
    sends nothing, shows nothing, and ends normally. *)
Theorem box_dismissed (w : world) (c : command) (p : jstring)
    (typed : option jstring) :
  let r := run w (handler c) [] in
  c = devkb_ask \/ c = devkb_search ->
  hd_error (inputs (fst r)) = Some (p, typed) ->
  truthy typed = false ->
  List.length (fst r) = 1
  /\ List.length (boxes (fst r)) = 1
  /\ snd r = Returned tt.
Proof.
  intros r [-> | ->]; subst r; cbn [handler];
    [unfold askQuestion | unfold search]; prefix w.
  all: try (intros _ _; repeat split; reflexivity).
  all: try (intros I Tt; cbn in I; injection I as <- <-; discriminate Tt).
  all: at_request w; observe; intros I Tt; cbn in I;
    injection I as <- <-; discriminate Tt.
Qed.

Lemma box_dismissed_witness :
  let r := run dismisses (handler devkb_search) [] in
  List.length (fst r) = 1
  /\ List.length (boxes (fst r)) = 1
  /\ snd r = Returned tt.
Proof.
  apply (@box_dismissed dismisses devkb_search
           (js "Search the knowledge base") None);
    [right; reflexivity | vm_compute; reflexivity | reflexivity].
Defined.

(** ** Results that cannot be listed *)

Lemma for_each_to_item_fails (entries : list value) :
  Exists (fun e => forall s, prop e (js "content") <> VStr s) entries ->
  for_each to_item entries = Raise TypeError.
Proof.
  induction 1 as [e l H | e l H IH]; cbn [for_each].
  - destruct (to_item_cases e) as [-> | (item & _ & D)]; [reflexivity |].
    exfalso. unfold displays in D.
    destruct D as (_ & _ & _ & s & C & _). exact (H s C).
  - destruct (to_item_cases e) as [-> | (item & -> & D)]; cbn [bind];
      [reflexivity | now rewrite IH].
Qed.

(** X23.  One entry whose content is no string hides every result of a
    search: building its quick-pick item throws a [TypeError] that
    nothing catches, so no quick-pick, no message and no document
    appear, whatever the other entries are. *)
Theorem search_entry_without_content (w : world) (v : value)
    (entries : list value) :
  let r := run w search [] in
  results (fst r) = [v] ->
  is_success v = true ->
  prop v (js "data") = VArr entries ->
  Exists (fun e => forall s, prop e (js "content") <> VStr s) entries ->
  snd r = Thrown TypeError
  /\ shown (fst r) = []
  /\ notifications (fst r) = []
  /\ documents (fst r) = [].
Proof.
  unfold search. prefix w.
  all: try (intros V; discriminate V).
  all: with_result w v.
  all: intros S D X; rewrite app_assoc in T;
    match type of T with run _ _ ?p = _ => remember p as past eqn:Hp end;
    rewrite succeeded_pure, S in T; cbn [bind] in T;
    destruct (is_success_object v S) as [props ->];
    rewrite !Get_object in T; rewrite D in T;
    cbn [bind] in T; rewrite Get_array_length in T;
    cbn [bind GreaterThanZero] in T;
    (destruct entries as [| e l]; [inversion X |]);
    cbn [List.length] in T; rewrite length_positive in T;
    unfold array_map in T; rewrite (for_each_to_item_fails X) in T;
    cbn in T; thrown T;
    destruct (exchange_success_quiet E S) as [N _];
    unfold notifications in N;
    quiet_exchange shown_of; quiet_exchange document_of; rewrite ?N;
    cbn; repeat split; reflexivity.
Qed.

Lemma search_entry_without_content_witness :
  let r := run (scripted entry_without_content) search [] in
  snd r = Thrown TypeError
  /\ shown (fst r) = []
  /\ notifications (fst r) = []
  /\ documents (fst r) = [].
Proof.
  pose (first := VObj [(js "title", VStr (js "Login"));
                       (js "type", VStr (js "decision"));
                       (js "content",
                        VStr (js "Sessions are kept in a cookie."));
                       (js "tags", VArr [VStr (js "Auth")])]).
  pose (second := VObj [(js "title", VStr (js "Logout"));
                        (js "type", VStr (js "note"));
                        (js "tags", VArr [])]).
  apply (@search_entry_without_content (scripted entry_without_content)
           (VObj [(js "success", VBool true);
                  (js "data", VArr [first; second])])
           [first; second]);
    [vm_compute; reflexivity | vm_compute; reflexivity
    | vm_compute; reflexivity |].
  apply Exists_cons_tl, Exists_cons_hd. intros s. vm_compute. discriminate.
Defined.

(** * Runs on concrete answers *)

Example encodeURIComponent_ascii :
  encodeURIComponent (js "a b&c/d") = Some (js "a%20b%26c%2Fd").
Proof. reflexivity. Qed.

(** U+00E9, U+20AC and the surrogate pair of U+1F600. *)
Example encodeURIComponent_utf8 :
  encodeURIComponent [233; 8364; 55357; 56832]%N
  = Some (js "%C3%A9%E2%82%AC%F0%9F%98%80").
Proof. reflexivity. Qed.

Example encodeURIComponent_lone_surrogate :
  encodeURIComponent [97; 55357]%N = None.
Proof. reflexivity. Qed.

Example split_trim_tags :
  map trim (split comma (js " auth, Security ,,jwt "))
  = [js "auth"; js "Security"; js ""; js "jwt"].
Proof. reflexivity. Qed.

Example decimal_42 : decimal 42 = js "42".
Proof. reflexivity. Qed.

Example ask_answered :
  let r := run (scripted answered) askQuestion [] in
  requests (fst r)
  = [(js "http://localhost:3001/api/ask",
      {| method := js "POST";
         headers := [(js "Content-Type", js "application/json")];
         body := Some (JSON_stringify
                         (VObj [(js "question",
                                 VStr (js "How do we log in?"))])) |})]
  /\ documents (fst r)
     = [{| content := js "# Question: How do we log in?" ++ nl ++ nl
                      ++ js "## Answer" ++ nl ++ js "With a cookie.";
           language := js "markdown" |}]
  /\ snd r = Returned tt.
Proof. repeat split; vm_compute; reflexivity. Qed.

Example search_one_result :
  let r := run (scripted one_result) search [] in
  map fst (requests (fst r))
  = [js "http://localhost:3001/api/search?q=log%20in"]
  /\ map (map (fun i => (label i, description i, detail i))) (shown (fst r))
     = [[(VStr (js "Login"), VStr (js "decision"),
          js "Sessions are kept in a cookie....")]]
  /\ documents (fst r)
     = [{| content := js "# Login" ++ nl ++ nl
                      ++ js "**Type:** decision" ++ nl
                      ++ js "**Tags:** Auth, security" ++ nl ++ nl
                      ++ js "---" ++ nl ++ nl
                      ++ js "Sessions are kept in a cookie.";
           language := js "markdown" |}]
  /\ snd r = Returned tt.
Proof. repeat split; vm_compute; reflexivity. Qed.

Example search_refused :
  let r := run (scripted refused) search [] in
  notifications (fst r) = [(Information, js "No results found.")]
  /\ shown (fst r) = []
  /\ snd r = Returned tt.
Proof. repeat split; vm_compute; reflexivity. Qed.

Example search_unreachable :
  let r := run (scripted unreachable) search [] in
  notifications (fst r)
  = [(Error, js "DevKB API error: TypeError: fetch failed");
     (Information, js "No results found.")]
  /\ shown (fst r) = []
  /\ snd r = Returned tt.
Proof. repeat split; vm_compute; reflexivity. Qed.

Example addEntry_accepted :
  let r := run (scripted adds_login) addEntry [] in
  requests (fst r)
  = [(js "http://localhost:3001/api/entries",
      {| method := js "POST";
         headers := [(js "Content-Type", js "application/json")];
         body := Some (JSON_stringify
           (VObj [(js "type", VStr (js "decision"));
                  (js "title", VStr (js "Login"));
                  (js "content", VStr (js "Sessions are kept in a cookie."));
                  (js "tags", VArr [VStr (js "Auth"); VStr (js "security")]);
                  (js "source", VStr (js "vscode"))])) |})]
  /\ notifications (fst r)
     = [(Information,
         js "Entry " ++ dquote ++ js "Login" ++ dquote
         ++ js " created successfully!")]
  /\ snd r = Returned tt.
Proof. repeat split; vm_compute; reflexivity. Qed.

Example indexProject_run :
  let r := run (scripted adds_login) indexProject [] in
  notifications (fst r)
  = [(Information, js "Found 1 files to index");
     (Information, js "Use the DevKB CLI to index: devkb index")]
  /\ snd r = Returned tt.
Proof. repeat split; vm_compute; reflexivity. Qed.

Example showStats_counted :
  let r := run (scripted counted) showStats [] in
  notifications (fst r)
  = [(Information,
      js "Total Entries: 2" ++ nl ++ js "Unique Tags: 3" ++ nl
      ++ js "Searches: 0" ++ nl ++ nl ++ js "By Type:" ++ nl
      ++ js "  code: 1" ++ nl ++ js "  decision: 1")]
  /\ snd r = Returned tt.
Proof. repeat split; vm_compute; reflexivity. Qed.

(** An answer without [data] makes the ask command throw. *)
Example ask_without_data :
  snd (run (scripted adds_login) askQuestion []) = Thrown TypeError.
Proof. vm_compute. reflexivity. Qed.
